(** * SAML self-service strategy of Kratos: embedding and properties

    Part I holds the embedding of the sources and the data the statements
    are checked on; Part II holds the properties.

    The development follows three Go sources:
    - [selfservice/strategy/saml/strategy/strategy.go], package [strategy]
      (module [Strategy] below);
    - the handler of package [saml] that keeps the engine in the package
      variable [samlMiddleware] (module [SamlGlobal]);
    - [selfservice/flow/saml/handler.go], the handler that keeps the engine
      in a field of [Handler] (module [SamlHandler]).

    HTTP handlers return nothing; what they do is write to the response and
    call collaborators.  A handler is therefore embedded as a computation in
    a small monad that records the collaborator calls in order and either
    returns or panics. *)

From Stdlib Require Import Ascii.
From stdpp Require Import base option list strings gmap.

Open Scope string_scope.
Open Scope list_scope.

(** ** Go values shared by the three sources *)

Module Go.

(** [uuid.UUID] is a 16 byte array; it is kept as the number it spells. *)
Definition UUID := N.

(** Modelled from the spec: [x.IsZeroUUID] is not among the sources; the
    resolver "rejects zero/empty flow identifiers", that is the UUID whose
    bytes are all zero. *)
Definition IsZeroUUID (u : UUID) : bool := N.eqb u 0%N.

(** The error values the sources create or inspect.  [ErrOther] stands
    for any error a collaborator outside the sources hands back. *)
Inductive error :=
| ErrBadRequest (reason : string)           (* herodot.ErrBadRequest.WithReason *)
| ErrInternalServerError (reason : string)  (* herodot.ErrInternalServerError.WithReasonf *)
| ErrAPIFlowNotSupported                    (* samlstrategy.ErrAPIFlowNotSupported *)
| ErrNoActiveSessionFound                   (* session.ErrNoActiveSessionFound *)
| ErrWrapped (msg : string) (inner : error) (* errors.Wrapf *)
| ErrOther (msg : string).

(** [errors.As(err, &e)] with [e : *session.ErrNoActiveSessionFound]:
    walks the chain of wrapped errors; a nil error never matches. *)
Fixpoint is_no_active_session (e : error) : bool :=
  match e with
  | ErrNoActiveSessionFound => true
  | ErrWrapped _ inner => is_no_active_session inner
  | _ => false
  end.

Definition errors_As_ErrNoActiveSessionFound (err : option error) : bool :=
  match err with
  | Some e => is_no_active_session e
  | None => false
  end.

(** [*url.URL], reduced to the two views the sources take of it. *)
Record URL := { url_String : string; url_Path : string }.

Record Request := {
  Method : string;
  RequestPath : string;
  Query : list (string * string);
  Cookie : string
}.

(** [r.URL.Query().Get(k)]: the first value of [k], the empty string when
    there is none. *)
Fixpoint Query_Get (q : list (string * string)) (k : string) : string :=
  match q with
  | [] => ""
  | (k', v) :: q' => if decide (k' = k) then v else Query_Get q' k
  end.

(** Why a goroutine stopped with a run-time panic. *)
Inductive panic :=
| NilDereference
| IndexOutOfRange (index : Z) (length : nat)
| TypeAssertionFailed              (* x.(T) on another dynamic type *)
| ExplicitPanic (msg : string)     (* panic("...") *)
| ErrorPanic (err : error).        (* panic(err) *)

Inductive outcome (A : Type) :=
| Returned (a : A)
| Panicked (p : panic).
Arguments Returned {A} a.
Arguments Panicked {A} p.

(** [l[i]] on a slice, with Go's bounds check. *)
Definition index {A} (l : list A) (i : Z) : outcome A :=
  if decide (0 ≤ i)%Z then
    match l !! Z.to_nat i with
    | Some a => Returned a
    | None => Panicked (IndexOutOfRange i (length l))
    end
  else Panicked (IndexOutOfRange i (length l)).

End Go.

Import Go.

(** ** The SAML engine ([github.com/crewjam/saml]), as the sources see it *)

Module samlsp.

Record AttributeValue := { Value : string }.

Record Attribute := {
  FriendlyName : string;
  Name : string;
  Values : list AttributeValue
}.

Record AttributeStatement := { Attributes : list Attribute }.

Record Assertion := { AttributeStatements : list AttributeStatement }.

Record TrackedRequest := { SAMLRequestID : string }.

(** The engine handle [samlsp.Middleware], with the fields and methods
    the sources use. *)
Record Middleware := {
  AllowIDPInitiated : bool;
  GetTrackedRequests : Request → list TrackedRequest;
  ParseResponse : Request → list string → option Assertion * option error;
  DefaultRedirectURI : string;
  AcsURL : URL;
  MetadataURL : URL;
  EntityID : string
}.

End samlsp.

(** ** Calls a handler makes on its collaborators *)

Inductive Group := DefaultGroup | OpenIDConnectGroup | SAMLGroup.

Inductive FlowType := TypeBrowser | TypeAPI.

#[global] Instance FlowType_eq_dec : EqDecision FlowType.
Proof. solve_decision. Defined.

#[global] Instance Group_eq_dec : EqDecision Group.
Proof. solve_decision. Defined.

#[global] Instance error_eq_dec : EqDecision error.
Proof. solve_decision. Defined.

(** ** UI containers ([ui/container], [ui/node]) *)

Module ui.

Inductive Message :=
| InfoRegistrationContinue       (* text.NewInfoRegistrationContinue() *)
| InfoText (text : string).

Inductive InputType := InputHidden | InputSubmit | InputText.

Record Node := {
  node_group : Group;
  node_name : string;
  node_type : InputType;
  node_value : string;
  node_label : option Message
}.

(** [container.Container]; the sources touch its [Nodes] only. *)
Record Container := { Nodes : list Node }.

Definition NewCSRFNode (token : string) : Node :=
  {| node_group := DefaultGroup; node_name := "csrf_token";
     node_type := InputHidden; node_value := token; node_label := None |}.

Definition NewProviderNode (provider : string) (message : Message) : Node :=
  {| node_group := SAMLGroup; node_name := "provider";
     node_type := InputSubmit; node_value := provider;
     node_label := Some message |}.

(** A node set by name: the node of that name is replaced where it
    stands, a new name goes to the end. *)
Fixpoint Upsert (ns : list Node) (n : Node) : list Node :=
  match ns with
  | [] => [n]
  | n' :: ns' =>
      if decide (node_name n' = node_name n) then n :: ns'
      else n' :: Upsert ns' n
  end.

(** Modelled from the spec: [Container.SetCSRF] is not among the sources;
    the spec has the responder "reissue a fresh CSRF token" in the UI
    state, which is a hidden node named csrf_token carrying the token. *)
Definition SetCSRF (token : string) (c : Container) : Container :=
  {| Nodes := Upsert (Nodes c) (NewCSRFNode token) |}.

(** Modelled from the spec: [AddProvider] is not among the sources; the
    spec has it "append exactly one continue-with-provider affordance",
    a submit node named provider whose value is the provider id. *)
Definition AddProvider (c : Container) (provider : string)
    (message : Message) : Container :=
  {| Nodes := Nodes c ++ [NewProviderNode provider message] |}.

Definition set_value (v : string) (n : Node) : Node :=
  {| node_group := node_group n; node_name := node_name n;
     node_type := node_type n; node_value := v;
     node_label := node_label n |}.

(** Modelled from the spec: [Container.UpdateNodeValuesFromJSON] is not
    among the sources; the spec has the trait nodes "pre-populated from
    the staged data": for every leaf [(key, value)] of the staged JSON the
    node named [prefix.key] takes [value].  The leaves are handed in
    already flattened; the group argument plays no part in this. *)
Definition update_node (prefix : string) (n : Node) (kv : string * string)
  : Node :=
  if decide (node_name n = prefix +:+ "." +:+ kv.1) then set_value kv.2 n
  else n.

(** Modelled from the spec: [Container.UpdateNodeValuesFromJSON], leaf by
    leaf over all nodes. *)
Definition UpdateNodeValues (leaves : list (string * string))
    (prefix : string) (c : Container) : Container :=
  {| Nodes :=
       foldl (λ ns kv, (λ n, update_node prefix n kv) <$> ns)
             (Nodes c) leaves |}.

(** The token the UI state carries, if any. *)
Definition csrf_token (c : Container) : option string :=
  node_value <$> head (filter (λ n, node_name n = "csrf_token") (Nodes c)).

Definition is_provider_node (n : Node) : bool :=
  bool_decide (node_name n = "provider").

End ui.

(** ** Self-service flows *)

Record Session := { session_identity : UUID }.

Module login.
Record Flow := { ID : UUID; Type_ : FlowType; UI : ui.Container; CSRFToken : string }.
End login.

Module registration.
Record Flow := { ID : UUID; Type_ : FlowType; UI : ui.Container; CSRFToken : string }.
End registration.

Module settings.
Record Flow := { ID : UUID; Type_ : FlowType; UI : ui.Container; IdentityID : UUID }.
End settings.

(** A value of the interface [flow.Flow]: nil, or a pointer of one of the
    three dynamic types.  The pointer itself may be nil ([None]), which Go
    keeps apart from the nil interface. *)
Inductive Flow :=
| NilFlow
| LoginFlow (p : option login.Flow)
| RegistrationFlow (p : option registration.Flow)
| SettingsFlow (p : option settings.Flow).

(** ** Collaborator calls, in the order a handler makes them *)

Inductive Call :=
| GetRegistrationFlow (rid : UUID)
| GetLoginFlow (rid : UUID)
| GetSettingsFlow (rid : UUID)
| FetchFromRequest
| RegistrationValid (rid : UUID)
| LoginValid (rid : UUID)
| SettingsValid (rid : UUID) (sess : Session)
| ParseResponseOf (possibleRequestIDs : list string)
| OnError (err : option error)
| WriteLoginFlowError (f : option login.Flow) (g : Group) (err : option error)
| WriteRegistrationFlowError (f : option registration.Flow) (g : Group)
    (err : option error)
| ErrorManagerForward (err : option error)
| HandleStartAuthFlow
| ServeMetadata
| Redirect (path : string) (code : nat)
| CreateSessionFromAssertion (a : option samlsp.Assertion) (redirectURI : string)
| FetchMetadata (url : string)
| SamlspNew.

(** Calls that put a status line or a body on the response writer: the
    engine's error responder answers 403, the flow error handlers and the
    error manager redirect or render, the engine's start of the
    authentication flow redirects to the IDP, session creation redirects. *)
Definition writes_response (c : Call) : bool :=
  match c with
  | OnError _ | WriteLoginFlowError _ _ _ | WriteRegistrationFlowError _ _ _
  | ErrorManagerForward _ | HandleStartAuthFlow | ServeMetadata
  | Redirect _ _ | CreateSessionFromAssertion _ _ => true
  | _ => false
  end.

Definition responses (t : list Call) : nat :=
  length (filter (λ c, writes_response c = true) t).

(** Calls of the flow-typed error responder. *)
Definition is_flow_error_write (c : Call) : bool :=
  match c with
  | WriteLoginFlowError _ _ _ | WriteRegistrationFlowError _ _ _ => true
  | _ => false
  end.

Definition forwards (t : list Call) : nat :=
  length (filter (λ c, is_flow_error_write c = true) t).

Definition is_construction (c : Call) : bool :=
  match c with SamlspNew => true | _ => false end.

Definition is_start_auth (c : Call) : bool :=
  match c with HandleStartAuthFlow => true | _ => false end.

(** ** The handler monad: a trace of calls and a result or a panic *)

Definition handler (A : Type) : Type := list Call * outcome A.

#[global] Instance handler_ret : MRet handler :=
  λ A a, ([], Returned a).

#[global] Instance handler_bind : MBind handler :=
  λ A B k m,
    match m with
    | (t, Returned a) => let '(t', o) := k a in (t ++ t', o)
    | (t, Panicked p) => (t, Panicked p)
    end.

Definition call (c : Call) : handler unit := ([c], Returned ()).

Definition panics {A} (p : panic) : handler A := ([], Panicked p).

Definition lift {A} (o : outcome A) : handler A := ([], o).

(** Dereference of a Go pointer. *)
Definition deref {A} (p : option A) : handler A :=
  match p with
  | Some a => mret a
  | None => panics NilDereference
  end.

Definition trace {A} (h : handler A) : list Call := h.1.
Definition result {A} (h : handler A) : outcome A := h.2.

(** ** Provider configuration ([selfservice/strategy/saml]) *)

Module samlstrategy.

Record Configuration := {
  ID : string;
  PublicCertPath : string;
  PrivateKeyPath : string;
  IDPMetadataURL : string;
  IDPSSOURL : string;
  IDPInformation : gmap string string
}.

Record ConfigurationCollection := { SAMLProviders : list Configuration }.

Record Claims := { Subject : string; Traits : list (string * string) }.

(** The interface [samlstrategy.Provider]. *)
Record Provider := {
  Config : Configuration;
  ClaimsOf : gmap string (list string) → option Claims * option error
}.

End samlstrategy.

(** ** strategy.go, package strategy *)

Module Strategy.

Import samlsp samlstrategy ui.

(** What the strategy reaches through its field [d]. *)
Record registrationStrategyDependencies := {
  GenerateCSRFToken : Request → string;
  DefaultIdentityTraitsSchemaURL : string;
  SelfServiceStrategyConfig : list Byte.byte;
  RegistrationFlowPersister : UUID → registration.Flow + error;
  LoginFlowPersister : UUID → login.Flow + error;
  SettingsFlowPersister : UUID → settings.Flow + error;
  SessionManager_FetchFromRequest : Request → Session + error
}.

(** Functions and methods of other packages that the strategy calls and
    that are not among the sources. *)
Record Externals := {
  Error : error → string;       (* err.Error() *)
  StrictDecode : list Byte.byte → ConfigurationCollection + error;
  url_Parse : string → URL + error;
  NodesFromJSONSchema : Group → string → list Node + error;
  Flatten : list Byte.byte → list (string * string);
  registration_Valid : registration.Flow → option error;
  login_Valid : login.Flow → option error;
  settings_Valid : settings.Flow → Session → option error;
  collection_Provider : ConfigurationCollection → URL → URL → Provider + error;
  GetMiddleware : option Middleware;
  processLoginOrRegister :
    Request → Provider → option Claims → handler (option Flow * option error)
}.

Definition NodeGroup : Group := SAMLGroup.

Section WithStrategy.

Context (d : registrationStrategyDependencies) (ext : Externals).

Definition with_UI (rf : registration.Flow) (c : Container) : registration.Flow :=
  {| registration.ID := registration.ID rf;
     registration.Type_ := registration.Type_ rf;
     registration.UI := c;
     registration.CSRFToken := registration.CSRFToken rf |}.

(** [handleError] works on the flow behind the pointer; the embedding
    hands back the flow as it stands afterwards, with the error. *)
Definition handleError (r : Request) (f : Flow) (provider : string)
    (traits : option (list Byte.byte)) (err : option error)
  : handler (Flow * option error) :=
  match f with
  | LoginFlow _ => mret (f, err)
  | RegistrationFlow p =>
      rf ← deref p;
      let ui0 := {| Nodes := [] |} in
      let ui1 := SetCSRF (GenerateCSRFToken d r) ui0 in
      let ui2 := AddProvider ui1 provider InfoRegistrationContinue in
      match traits with
      | Some t =>
          match NodesFromJSONSchema ext OpenIDConnectGroup
                  (DefaultIdentityTraitsSchemaURL d) with
          | inr e => mret (RegistrationFlow (Some (with_UI rf ui2)), Some e)
          | inl traitNodes =>
              let ui3 := {| Nodes := Nodes ui2 ++ traitNodes |} in
              let ui4 := UpdateNodeValues (Flatten ext t) "traits" ui3 in
              mret (RegistrationFlow (Some (with_UI rf ui4)), err)
          end
      | None => mret (RegistrationFlow (Some (with_UI rf ui2)), err)
      end
  | SettingsFlow _ => mret (f, err)
  | NilFlow => mret (f, err)
  end.

(** The three nested loops of [getAttributesFromAssertion]. *)
Definition claimName (attr : Attribute) : string :=
  if decide (FriendlyName attr = "") then Name attr else FriendlyName attr.

Definition appendValue (claimName : string)
    (attributes : gmap string (list string)) (value : AttributeValue)
  : gmap string (list string) :=
  <[claimName := default [] (attributes !! claimName) ++ [Value value]]>
    attributes.

Definition collectAttribute (attributes : gmap string (list string))
    (attr : Attribute) : gmap string (list string) :=
  foldl (appendValue (claimName attr)) attributes (Values attr).

Definition collectStatement (attributes : gmap string (list string))
    (attributeStatement : AttributeStatement) : gmap string (list string) :=
  foldl collectAttribute attributes (Attributes attributeStatement).

Definition collectAttributes (assertion : Assertion)
  : gmap string (list string) :=
  foldl collectStatement ∅ (AttributeStatements assertion).

Definition possibleRequestIDs (m : Middleware) (r : Request) : list string :=
  (if AllowIDPInitiated m then [""] else [])
    ++ (SAMLRequestID <$> GetTrackedRequests m r).

(** A nil map is returned as the empty map, which is how Go reads it. *)
Definition getAttributesFromAssertion (r : Request) (m : Middleware)
  : handler (gmap string (list string) * option error) :=
  let ids := possibleRequestIDs m r in
  call (ParseResponseOf ids);;
  let '(assertion, err) := ParseResponse m r ids in
  match err with
  | Some _ => call (OnError err);; mret (∅, err)
  | None =>
      a ← deref assertion;
      mret (collectAttributes a, None)
  end.

Definition forwardError (r : Request) (f : Flow) (err : option error)
  : handler unit :=
  match f with
  | LoginFlow ff => call (WriteLoginFlowError ff NodeGroup err)
  | RegistrationFlow ff => call (WriteRegistrationFlowError ff NodeGroup err)
  | _ => call (WriteLoginFlowError None NodeGroup err)
  end.

Definition Config : option ConfigurationCollection * option error :=
  match StrictDecode ext (SelfServiceStrategyConfig d) with
  | inl c => (Some c, None)
  | inr err =>
      (None,
       Some (ErrInternalServerError
               ("Unable to decode SAML Identity Provider configuration: "
                  +:+ Error ext err)))
  end.

Definition provider (r : Request) : handler (option Provider * option error) :=
  let '(c, err) := Config in
  match err with
  | Some _ => mret (None, err)
  | None =>
      c ← deref c;
      p0 ← lift (index (SAMLProviders c) 0);
      match url_Parse ext (IDPMetadataURL p0) with
      | inr err => mret (None, Some err)
      | inl IDPMetadataURL =>
          p0 ← lift (index (SAMLProviders c) 0);
          match url_Parse ext (IDPSSOURL p0) with
          | inr err => mret (None, Some err)
          | inl IDPSSOURL =>
              match collection_Provider ext c IDPMetadataURL IDPSSOURL with
              | inr err => mret (None, Some err)
              | inl provider => mret (Some provider, None)
              end
          end
      end
  end.

Definition handleCallback (r : Request) : handler unit :=
  m ← deref (GetMiddleware ext);
  '(attributes, err) ← getAttributesFromAssertion r m;
  match err with
  | Some _ => forwardError r NilFlow err
  | None =>
  '(provider, err) ← provider r;
  match err with
  | Some _ => forwardError r NilFlow err
  | None =>
  p ← deref provider;
  let '(claims, err) := ClaimsOf p attributes in
  match err with
  | Some _ => forwardError r NilFlow err
  | None =>
  '(ff, err) ← processLoginOrRegister ext r p claims;
  match err with
  | Some _ =>
      if bool_decide (ff ≠ None) then
        f ← deref ff; forwardError r f err
      else
        f ← deref ff; forwardError r f err
  | None => mret ()
  end end end end.

Definition validateFlow (r : Request) (rid : UUID)
  : handler (Flow * option error) :=
  if IsZeroUUID rid then
    mret (NilFlow,
          Some (ErrBadRequest "The session cookie contains invalid values and the flow could not be executed. Please try again."))
  else
    call (GetRegistrationFlow rid);;
    match RegistrationFlowPersister d rid with
    | inl ar =>
        if bool_decide (registration.Type_ ar ≠ TypeBrowser) then
          mret (RegistrationFlow (Some ar), Some ErrAPIFlowNotSupported)
        else
          call (RegistrationValid rid);;
          match registration_Valid ext ar with
          | Some err => mret (RegistrationFlow (Some ar), Some err)
          | None => mret (RegistrationFlow (Some ar), None)
          end
    | inr _ =>
    call (GetLoginFlow rid);;
    match LoginFlowPersister d rid with
    | inl ar =>
        if bool_decide (login.Type_ ar ≠ TypeBrowser) then
          mret (LoginFlow (Some ar), Some ErrAPIFlowNotSupported)
        else
          call (LoginValid rid);;
          match login_Valid ext ar with
          | Some err => mret (LoginFlow (Some ar), Some err)
          | None => mret (LoginFlow (Some ar), None)
          end
    | inr _ =>
    call (GetSettingsFlow rid);;
    match SettingsFlowPersister d rid with
    | inl ar =>
        if bool_decide (settings.Type_ ar ≠ TypeBrowser) then
          mret (SettingsFlow (Some ar), Some ErrAPIFlowNotSupported)
        else
          call FetchFromRequest;;
          match SessionManager_FetchFromRequest d r with
          | inr err => mret (SettingsFlow (Some ar), Some err)
          | inl sess =>
              call (SettingsValid rid sess);;
              match settings_Valid ext ar sess with
              | Some err => mret (SettingsFlow (Some ar), Some err)
              | None => mret (SettingsFlow (Some ar), None)
              end
          end
    | inr err => mret (SettingsFlow None, Some err)
    end end end.

End WithStrategy.

End Strategy.

(** ** Package saml with the engine in a package variable
       (second source of strategy.go) *)

Module SamlGlobal.

Import samlsp samlstrategy.

Definition RouteSamlMetadata := "/self-service/methods/saml/metadata".
Definition RouteSamlLoginInit := "/self-service/methods/saml/browser".
Definition RouteSamlAcs := "/self-service/methods/saml/acs".

Record handlerDependencies := {
  SelfServiceStrategyConfig : list Byte.byte;
  SelfServiceBrowserDefaultReturnTo : URL;
  SelfPublicURL : URL;
  SessionManager_FetchFromRequest : Request → Session + error
}.

Inductive PrivateKey := RSAPrivateKey (k : N) | OtherPrivateKey.

Record Certificate := { Raw : list Byte.byte }.

Record KeyPair := {
  kp_Certificate : list (list Byte.byte);
  kp_PrivateKey : PrivateKey
}.

Record EntityDescriptor := { ed_EntityID : string; ed_SSO : string }.

Record Options := {
  opt_URL : URL;
  opt_Key : N;
  opt_Certificate : Certificate;
  opt_IDPMetadata : option EntityDescriptor;
  opt_SignRequest : bool
}.

Record IdentityProvider := {
  idp_Certificate : Certificate;
  idp_MetadataURL : URL;
  idp_SSOURL : URL;
  idp_LogoutURL : URL
}.

(** Standard library and engine functions the handler calls. *)
Record Externals := {
  StrictDecode : list Byte.byte → ConfigurationCollection + error;
  LoadX509KeyPair : string → string → KeyPair + error;
  ParseCertificate : list Byte.byte → Certificate + error;
  url_Parse : string → URL + error;
  FetchMetadataFrom : URL → option EntityDescriptor * option error;
  ReadFile : string → list Byte.byte + error;
  pem_Decode : list Byte.byte → option (list Byte.byte);
  Metadata : IdentityProvider → option EntityDescriptor;
  samlsp_New : Options → Middleware + error
}.

(** [strings.Replace(s, old, new, 1)] for a non-empty [old]. *)
Fixpoint drop_chars (n : nat) (s : string) : string :=
  match n, s with
  | O, _ => s
  | S n', String _ s' => drop_chars n' s'
  | S _, EmptyString => EmptyString
  end.

Fixpoint Replace1 (s old new : string) : string :=
  if String.prefix old s then new +:+ drop_chars (String.length old) s
  else match s with
       | EmptyString => EmptyString
       | String c s' => String c (Replace1 s' old new)
       end.

Definition unfile (path : string) : string := Replace1 path "file://" "".

(** [s[len(s)-1]] and [s[:len(s)-1]]. *)
Definition last_byte (s : string) : outcome Ascii.ascii :=
  match String.get (String.length s - 1) s with
  | Some c => Returned c
  | None => Panicked (IndexOutOfRange (Z.of_nat (String.length s) - 1)
                        (String.length s))
  end.

Definition drop_last (s : string) : string :=
  String.substring 0 (String.length s - 1) s.

Definition map_get (m : gmap string string) (k : string) : string :=
  default "" (m !! k).

Definition mustParseCertificate (ext : Externals) (pemStr : list Byte.byte)
  : outcome Certificate :=
  match pem_Decode ext pemStr with
  | None => Panicked (ExplicitPanic "cannot parse PEM")
  | Some bytes =>
      match ParseCertificate ext bytes with
      | inr err => Panicked (ErrorPanic err)
      | inl cert => Returned cert
      end
  end.

Definition with_urls (m : Middleware) (acs metadata : URL) : Middleware :=
  {| AllowIDPInitiated := AllowIDPInitiated m;
     GetTrackedRequests := GetTrackedRequests m;
     ParseResponse := ParseResponse m;
     DefaultRedirectURI := DefaultRedirectURI m;
     AcsURL := acs;
     MetadataURL := metadata;
     EntityID := url_String metadata |}.

Section WithHandler.

Context (d : handlerDependencies) (ext : Externals).

(** The last provider of the list, [c.SAMLProviders[len(c.SAMLProviders)-1]]. *)
Definition lastProvider (c : ConfigurationCollection) : outcome Configuration :=
  index (SAMLProviders c) (Z.of_nat (length (SAMLProviders c)) - 1).

(** The IDP metadata, fetched or made up from the configuration
    (lines 545 to 605). *)
Definition idpMetadataOf (c : ConfigurationCollection)
  : handler (option EntityDescriptor * option error) :=
  p ← lift (lastProvider c);
  if bool_decide (map_get (IDPInformation p) "idp_metadata_url" ≠ "") then
    p ← lift (lastProvider c);
    match url_Parse ext (map_get (IDPInformation p) "idp_metadata_url") with
    | inr err => mret (None, Some err)
    | inl idpMetadataURL =>
        call (FetchMetadata (url_String idpMetadataURL));;
        let '(idpMetadata, err) := FetchMetadataFrom ext idpMetadataURL in
        match err with
        | Some _ => mret (None, err)
        | None => mret (idpMetadata, None)
        end
    end
  else
    p ← lift (lastProvider c);
    match url_Parse ext (map_get (IDPInformation p) "idp_entity_id") with
    | inr err => mret (None, Some err)
    | inl entityIDURL =>
    p ← lift (lastProvider c);
    match url_Parse ext (map_get (IDPInformation p) "idp_sso_url") with
    | inr err => mret (None, Some err)
    | inl IDPSSOURL =>
    p ← lift (lastProvider c);
    match url_Parse ext (map_get (IDPInformation p) "idp_logout_url") with
    | inr err => mret (None, Some err)
    | inl IDPlogoutURL =>
    p ← lift (lastProvider c);
    match ReadFile ext (unfile (map_get (IDPInformation p) "idp_certificate_path")) with
    | inr err => mret (None, Some err)
    | inl certificate =>
        IDPCertificate ← lift (mustParseCertificate ext certificate);
        let simulatedIDP :=
          {| idp_Certificate := IDPCertificate;
             idp_MetadataURL := entityIDURL;
             idp_SSOURL := IDPSSOURL;
             idp_LogoutURL := IDPlogoutURL |} in
        mret (Metadata ext simulatedIDP, None)
    end end end end.

(** [instantiateMiddleware] up to the assignment of the package
    variable: the engine it would store, or the error it returns. *)
Definition buildMiddleware (r : Request)
  : handler (option Middleware * option error) :=
  match StrictDecode ext (SelfServiceStrategyConfig d) with
  | inr err =>
    mret (None,
          Some (ErrWrapped
                  ("Unable to decode config "
                     +:+ String.string_of_list_byte (SelfServiceStrategyConfig d))
                  err))
  | inl c =>
  pc ← lift (lastProvider c);
  pk ← lift (lastProvider c);
  match LoadX509KeyPair ext (unfile (PublicCertPath pc)) (unfile (PrivateKeyPath pk)) with
  | inr err => mret (None, Some err)
  | inl keyPair =>
  cert0 ← lift (index (kp_Certificate keyPair) 0);
  match ParseCertificate ext cert0 with
  | inr err => mret (None, Some err)
  | inl Leaf =>
  '(idpMetadata, err) ← idpMetadataOf c;
  match err with
  | Some _ => mret (None, err)
  | None =>
  match url_Parse ext (url_String (SelfServiceBrowserDefaultReturnTo d)) with
  | inr err => mret (None, Some err)
  | inl rootURL =>
  key ← match kp_PrivateKey keyPair with
        | RSAPrivateKey k => mret k
        | OtherPrivateKey =>
            panics TypeAssertionFailed
        end;
  call SamlspNew;;
  match samlsp_New ext
          {| opt_URL := rootURL; opt_Key := key; opt_Certificate := Leaf;
             opt_IDPMetadata := idpMetadata; opt_SignRequest := true |} with
  | inr err => mret (None, Some err)
  | inl samlMiddleWare =>
  let publicUrlString := url_String (SelfPublicURL d) in
  last ← lift (last_byte publicUrlString);
  let publicUrlString' :=
    if decide (last = "/"%char) then drop_last publicUrlString
    else publicUrlString in
  match url_Parse ext (publicUrlString' +:+ RouteSamlAcs) with
  | inr err => mret (None, Some err)
  | inl u =>
      metadata ← deref (match url_Parse ext (publicUrlString' +:+ RouteSamlMetadata) with
                        | inl m => Some m
                        | inr _ => None
                        end);
      mret (Some (with_urls samlMiddleWare u metadata), None)
  end end end end end end end.

(** [instantiateMiddleware]: the value of the package variable
    afterwards, and the error returned. *)
Definition instantiateMiddleware (samlMiddleware : option Middleware)
    (r : Request) : handler (option Middleware * option error) :=
  '(built, err) ← buildMiddleware r;
  match built with
  | Some m => mret (Some m, None)
  | None => mret (samlMiddleware, err)
  end.

(** Lines 506 to 520 of [loginWithIdp]: the session check and what
    follows from it. *)
Definition dispatch (samlMiddleware : option Middleware) (r : Request)
  : handler unit :=
  match SessionManager_FetchFromRequest d r with
  | inr err =>
      if errors_As_ErrNoActiveSessionFound (Some err) then
        deref samlMiddleware;; call HandleStartAuthFlow
      else
        call (Redirect (url_Path (SelfServiceBrowserDefaultReturnTo d)) 307)
  | inl _ => call (ErrorManagerForward None)
  end.

(** [loginWithIdp]; the result is the package variable afterwards. *)
Definition loginWithIdp (samlMiddleware : option Middleware) (r : Request)
  : handler (option Middleware) :=
  g ← match samlMiddleware with
      | None =>
          '(g, err) ← instantiateMiddleware samlMiddleware r;
          match err with
          | Some _ => call (ErrorManagerForward err);; mret g
          | None => mret g
          end
      | Some _ => mret samlMiddleware
      end;
  dispatch g r;;
  mret g.

Definition GetMiddleware (samlMiddleware : option Middleware)
  : option Middleware * option error :=
  match samlMiddleware with
  | None => (None, Some (ErrOther "The MiddleWare for SAML is null (Probably due to a backward step)"))
  | Some m => (Some m, None)
  end.

End WithHandler.

End SamlGlobal.

(** ** Requests racing on the package variable

    Every request runs [SamlGlobal.loginWithIdp] on a goroutine of its own.
    The goroutines share [samlMiddleware] and touch it at three places: the
    nil test of line 500, the assignment of line 658 and the use of line
    512.  Between those places a goroutine works on its own locals, so one
    step of the model is the code from one such place to the next, and a
    schedule says which goroutine moves. *)

Module Concurrent.

Import samlsp SamlGlobal.

Inductive pc :=
| AtCheck                                 (* about to test samlMiddleware == nil *)
| AtBuild                                 (* inside instantiateMiddleware *)
| AtPublish (address : nat) (m : Middleware)  (* about to assign samlMiddleware *)
| AtDispatch                              (* about to check the session *)
| Finished
| Crashed (p : panic).

Record goroutine := {
  request : Request;
  at_ : pc;
  calls : list Call;
  used : option nat          (* the engine pointer the request was served by *)
}.

(** [samlMiddleware] holds a pointer: the address and what is behind it.
    [allocated] counts the engines [samlsp.New] has handed out; each gets
    the next address. *)
Record system := {
  samlMiddleware : option (nat * Middleware);
  allocated : nat;
  goroutines : list goroutine
}.

Definition spawn (r : Request) : goroutine :=
  {| request := r; at_ := AtCheck; calls := []; used := None |}.

Definition start (rs : list Request) : system :=
  {| samlMiddleware := None; allocated := 0; goroutines := spawn <$> rs |}.

(** A schedule for two requests that reach an engine not yet built.
    Both test the package variable before either has assigned it; the
    first then builds, assigns and dispatches, and the second does the
    same after it. *)
Definition overlapping : list nat := [0; 1; 0; 0; 0; 1; 1; 1].

(** The second request arrives when the first is done. *)
Definition oneAfterTheOther : list nat := [0; 0; 0; 0; 1; 1].

Section WithHandler.

Context (d : handlerDependencies) (ext : Externals).

Definition move (σ : system) (g : goroutine)
  : goroutine * option (nat * Middleware) * nat :=
  match at_ g with
  | AtCheck =>
      ({| request := request g;
          at_ := if samlMiddleware σ is None then AtBuild else AtDispatch;
          calls := calls g; used := used g |},
       samlMiddleware σ, allocated σ)
  | AtBuild =>
      let '(t, o) := buildMiddleware d ext (request g) in
      match o with
      | Panicked p =>
          ({| request := request g; at_ := Crashed p;
              calls := calls g ++ t; used := used g |},
           samlMiddleware σ, allocated σ)
      | Returned (Some m, _) =>
          ({| request := request g; at_ := AtPublish (allocated σ) m;
              calls := calls g ++ t; used := used g |},
           samlMiddleware σ, S (allocated σ))
      | Returned (None, err) =>
          ({| request := request g; at_ := AtDispatch;
              calls := calls g ++ t ++
                         (if err is Some _ then [ErrorManagerForward err]
                          else []);
              used := used g |},
           samlMiddleware σ, allocated σ)
      end
  | AtPublish a m =>
      ({| request := request g; at_ := AtDispatch;
          calls := calls g; used := used g |},
       Some (a, m), allocated σ)
  | AtDispatch =>
      let '(t, o) := dispatch d (snd <$> samlMiddleware σ) (request g) in
      ({| request := request g;
          at_ := match o with Returned _ => Finished | Panicked p => Crashed p end;
          calls := calls g ++ t;
          used := if existsb is_start_auth t
                  then fst <$> samlMiddleware σ else used g |},
       samlMiddleware σ, allocated σ)
  | Finished | Crashed _ => (g, samlMiddleware σ, allocated σ)
  end.

(** Goroutine [i] takes its next step. *)
Definition step (σ : system) (i : nat) : system :=
  match goroutines σ !! i with
  | None => σ
  | Some g =>
      let '(g', mw, n) := move σ g in
      {| samlMiddleware := mw; allocated := n;
         goroutines := <[i := g']> (goroutines σ) |}
  end.

Definition run (schedule : list nat) (σ : system) : system :=
  foldl step σ schedule.

Definition all_finished (σ : system) : bool :=
  forallb (λ g, match at_ g with Finished => true | _ => false end)
          (goroutines σ).

(** How often the engine was constructed, read off the calls. *)
Definition constructions (σ : system) : nat :=
  length (filter (λ c, is_construction c = true)
            (mjoin (calls <$> goroutines σ))).

End WithHandler.

End Concurrent.

(** ** handler.go, package saml with the engine in the handler *)

Module SamlHandler.

Import samlsp.

Definition RouteSamlMetadata := "/self-service/saml/metadata".
Definition RouteSamlAcs := "/self-service/saml/acs".
Definition RouteSamlLoginInit := "/self-service/saml/browser".

Record handlerDependencies := {
  SelfPublicURL : URL;
  SessionManager_FetchFromRequest : Request → Session + error
}.

Record Handler := {
  d : handlerDependencies;
  samlMiddleware : option Middleware
}.

Definition submitMetadata (h : Handler) (r : Request) : handler unit :=
  deref (samlMiddleware h);; call ServeMetadata.

Definition loginWithIdp (h : Handler) (r : Request) : handler unit :=
  let err := match SessionManager_FetchFromRequest (d h) r with
             | inl _ => None
             | inr e => Some e
             end in
  (if errors_As_ErrNoActiveSessionFound err then
     deref (samlMiddleware h);; call HandleStartAuthFlow
   else if bool_decide (err ≠ None) then
     mret ()
   else
     call (Redirect (url_Path (SelfPublicURL (d h))) 307));;
  deref (samlMiddleware h);;
  call (OnError err).

Definition possibleRequestIDs (m : Middleware) (r : Request) : list string :=
  (if AllowIDPInitiated m then [""] else [])
    ++ (SAMLRequestID <$> GetTrackedRequests m r).

Definition serveAcs (h : Handler) (r : Request) : handler unit :=
  m ← deref (samlMiddleware h);
  let ids := possibleRequestIDs m r in
  call (ParseResponseOf ids);;
  let '(assertion, err) := ParseResponse m r ids in
  (match err with
   | Some _ => call (OnError err)
   | None => mret ()
   end);;
  call (CreateSessionFromAssertion assertion (DefaultRedirectURI m)).

End SamlHandler.

(** ** Reading the result of the extraction *)

Section ExtractionSpec.

Import samlsp Strategy.

(** The key rule, read off the attribute alone: an attribute goes by its
    friendly name when that is not empty, and by its raw name when it is. *)
Definition namedBy (k : string) (attr : Attribute) : bool :=
  match FriendlyName attr with
  | EmptyString => bool_decide (Name attr = k)
  | String _ _ => bool_decide (FriendlyName attr = k)
  end.

(** The values the assertion carries under claim name [k], statement by
    statement and attribute by attribute, in the order of the document. *)
Definition claimValues (k : string) (a : Assertion) : list string :=
  st ← AttributeStatements a;
  attr ← Attributes st;
  if namedBy k attr then Value <$> Values attr else [].

Definition valuesAt (m : gmap string (list string)) (k : string) : list string :=
  default [] (m !! k).

(** No key of the map is bound to the empty slice. *)
Definition no_empty_entry (m : gmap string (list string)) : Prop :=
  ∀ k, m !! k ≠ Some [].

End ExtractionSpec.

(** ** Data the statements are checked on *)

Module Example.

Import samlsp samlstrategy ui.

Definition request : Request :=
  {| Method := "POST"; RequestPath := "/self-service/methods/saml/acs";
     Query := []; Cookie := "ory_kratos_continuity=abc" |}.

(** Two statements; the claim email is fed by two attributes with
    different raw names and repeats a value. *)
Definition assertion : Assertion :=
  {| AttributeStatements :=
       [ {| Attributes :=
              [ {| FriendlyName := ""; Name := "uid";
                   Values := [ {| Value := "alice" |} ] |};
                {| FriendlyName := "email"; Name := "urn:oid:0.9.2342.19200300.100.1.3";
                   Values := [ {| Value := "alice@example.com" |};
                               {| Value := "a@example.com" |} ] |} ] |};
         {| Attributes :=
              [ {| FriendlyName := "email"; Name := "mail";
                   Values := [ {| Value := "alice@example.com" |} ] |};
                {| FriendlyName := "groups"; Name := "memberOf";
                   Values := [] |} ] |} ] |}.

Definition metadataURL : URL :=
  {| url_String := "https://kratos.example/self-service/methods/saml/metadata";
     url_Path := "/self-service/methods/saml/metadata" |}.

Definition acsURL : URL :=
  {| url_String := "https://kratos.example/self-service/methods/saml/acs";
     url_Path := "/self-service/methods/saml/acs" |}.

(** An engine that accepts the response and parses [assertion]. *)
Definition middleware : Middleware :=
  {| AllowIDPInitiated := true;
     GetTrackedRequests := λ _, [ {| SAMLRequestID := "id-7" |} ];
     ParseResponse := λ _ _, (Some assertion, None);
     DefaultRedirectURI := "/";
     AcsURL := acsURL;
     MetadataURL := metadataURL;
     EntityID := url_String metadataURL |}.

(** An engine that rejects the response. *)
Definition rejecting : Middleware :=
  {| AllowIDPInitiated := false;
     GetTrackedRequests := λ _, [ {| SAMLRequestID := "id-7" |} ];
     ParseResponse := λ _ _, (None, Some (ErrOther "cannot validate signature"));
     DefaultRedirectURI := "/";
     AcsURL := acsURL;
     MetadataURL := metadataURL;
     EntityID := url_String metadataURL |}.

Definition emptyUI : Container := {| Nodes := [] |}.

Definition notFound : error := ErrOther "sql: no rows in result set".

(** Flow stores: the registration store holds flow 1, the login store the
    API flow 2, the settings store the browser flow 3 and the API flow 4.
    No request carries a session. *)
Definition d : Strategy.registrationStrategyDependencies :=
  {| Strategy.GenerateCSRFToken := λ _, "nosurf";
     Strategy.DefaultIdentityTraitsSchemaURL := "file:///etc/config/identity.schema.json";
     Strategy.SelfServiceStrategyConfig := [];
     Strategy.RegistrationFlowPersister := λ rid,
       if decide (rid = 1%N) then
         inl {| registration.ID := 1%N; registration.Type_ := TypeBrowser;
                registration.UI := emptyUI; registration.CSRFToken := "nosurf" |}
       else inr notFound;
     Strategy.LoginFlowPersister := λ rid,
       if decide (rid = 2%N) then
         inl {| login.ID := 2%N; login.Type_ := TypeAPI;
                login.UI := emptyUI; login.CSRFToken := "" |}
       else inr notFound;
     Strategy.SettingsFlowPersister := λ rid,
       if decide (rid = 3%N) then
         inl {| settings.ID := 3%N; settings.Type_ := TypeBrowser;
                settings.UI := emptyUI; settings.IdentityID := 9%N |}
       else if decide (rid = 4%N) then
         inl {| settings.ID := 4%N; settings.Type_ := TypeAPI;
                settings.UI := emptyUI; settings.IdentityID := 9%N |}
       else inr (ErrOther "settings flow not found");
     Strategy.SessionManager_FetchFromRequest := λ _, inr ErrNoActiveSessionFound |}.

(** A registration flow whose form was rendered for another method and
    carries the token the generator still yields. *)
Definition passwordNode : Node :=
  {| node_group := DefaultGroup; node_name := "password";
     node_type := InputText; node_value := ""; node_label := None |}.

Definition staleRegistration : registration.Flow :=
  {| registration.ID := 1%N; registration.Type_ := TypeBrowser;
     registration.UI := {| Nodes := [NewCSRFNode "nosurf"; passwordNode] |};
     registration.CSRFToken := "nosurf" |}.

Definition configuration : Configuration :=
  {| ID := "corp-idp";
     PublicCertPath := "file:///etc/config/sp.crt";
     PrivateKeyPath := "file:///etc/config/sp.key";
     IDPMetadataURL := "https://idp.example/metadata";
     IDPSSOURL := "https://idp.example/sso";
     IDPInformation := {[ "idp_metadata_url" := "https://idp.example/metadata" ]} |}.

Definition collection : ConfigurationCollection :=
  {| SAMLProviders := [configuration] |}.

(** A configuration document that decodes, with no provider in it. *)
Definition noProviders : ConfigurationCollection := {| SAMLProviders := [] |}.

Definition claimsOf (attributes : gmap string (list string))
  : option Claims * option error :=
  match attributes !! "email" with
  | Some (v :: _) => (Some {| Subject := v; Traits := [("email", v)] |}, None)
  | _ => (None, Some (ErrOther "claim email is missing"))
  end.

Definition provider : Provider :=
  {| Config := configuration; ClaimsOf := claimsOf |}.

Definition parseURL (s : string) : URL + error :=
  inl {| url_String := s; url_Path := "/" |}.

Definition traitNode : Node :=
  {| node_group := OpenIDConnectGroup; node_name := "traits.email";
     node_type := InputText; node_value := ""; node_label := None |}.

Definition duplicate : error :=
  ErrOther "an account with the same identifier exists already".

(** Collaborators that all succeed, up to [processLoginOrRegister], which
    fails before it has resolved a flow.  The configuration document
    decodes to [c]. *)
Definition extWith (c : ConfigurationCollection) : Strategy.Externals :=
  {| Strategy.Error := λ _, "error";
     Strategy.StrictDecode := λ _, inl c;
     Strategy.url_Parse := parseURL;
     Strategy.NodesFromJSONSchema := λ _ _, inl [traitNode];
     Strategy.Flatten := λ _, [("email", "alice@example.com")];
     Strategy.registration_Valid := λ _, None;
     Strategy.login_Valid := λ _, None;
     Strategy.settings_Valid := λ _ _, None;
     Strategy.collection_Provider := λ _ _ _, inl provider;
     Strategy.GetMiddleware := Some middleware;
     Strategy.processLoginOrRegister := λ _ _ _, mret (None, Some duplicate) |}.

Definition ext : Strategy.Externals := extWith collection.

(** Requests to the initiation endpoint, with and without a session
    cookie. *)
Definition signedIn : Request :=
  {| Method := "GET"; RequestPath := "/self-service/methods/saml/browser";
     Query := []; Cookie := "ory_kratos_session=s1" |}.

Definition anonymous : Request :=
  {| Method := "GET"; RequestPath := "/self-service/methods/saml/browser";
     Query := []; Cookie := "" |}.

Definition fetchSession (r : Request) : Session + error :=
  if decide (Cookie r = "ory_kratos_session=s1")
  then inl {| session_identity := 9%N |}
  else inr ErrNoActiveSessionFound.

Definition globalDeps : SamlGlobal.handlerDependencies :=
  {| SamlGlobal.SelfServiceStrategyConfig := [];
     SamlGlobal.SelfServiceBrowserDefaultReturnTo :=
       {| url_String := "https://app.example/welcome"; url_Path := "/welcome" |};
     SamlGlobal.SelfPublicURL :=
       {| url_String := "https://kratos.example/"; url_Path := "/" |};
     SamlGlobal.SessionManager_FetchFromRequest := fetchSession |}.

(** Key files, IDP metadata and engine construction all succeed; the
    configuration document decodes to [c]. *)
Definition globalExtWith (c : ConfigurationCollection) : SamlGlobal.Externals :=
  {| SamlGlobal.StrictDecode := λ _, inl c;
     SamlGlobal.LoadX509KeyPair := λ _ _,
       inl {| SamlGlobal.kp_Certificate := [[]];
              SamlGlobal.kp_PrivateKey := SamlGlobal.RSAPrivateKey 65537 |};
     SamlGlobal.ParseCertificate := λ b, inl {| SamlGlobal.Raw := b |};
     SamlGlobal.url_Parse := parseURL;
     SamlGlobal.FetchMetadataFrom := λ u,
       (Some {| SamlGlobal.ed_EntityID := url_String u;
                SamlGlobal.ed_SSO := "https://idp.example/sso" |}, None);
     SamlGlobal.ReadFile := λ _, inr (ErrOther "open: no such file or directory");
     SamlGlobal.pem_Decode := λ _, None;
     SamlGlobal.Metadata := λ _, None;
     SamlGlobal.samlsp_New := λ _, inl middleware |}.

Definition globalExt : SamlGlobal.Externals := globalExtWith collection.

Definition handlerDeps : SamlHandler.handlerDependencies :=
  {| SamlHandler.SelfPublicURL :=
       {| url_String := "https://kratos.example/"; url_Path := "/" |};
     SamlHandler.SessionManager_FetchFromRequest := fetchSession |}.

Definition handlerWith (m : Middleware) : SamlHandler.Handler :=
  {| SamlHandler.d := handlerDeps; SamlHandler.samlMiddleware := Some m |}.

End Example.

(** ** Reading the result of flow resolution *)

Section ResolverSpec.

Import Strategy.

Inductive Store := RegistrationStore | LoginStore | SettingsStore.

#[global] Instance Store_eq_dec : EqDecision Store.
Proof. solve_decision. Defined.

(** One store asked for a flow id, the answer as a [flow.Flow]. *)
Definition lookupStore (d : registrationStrategyDependencies) (st : Store)
    (rid : UUID) : Flow + error :=
  match st with
  | RegistrationStore =>
      match RegistrationFlowPersister d rid with
      | inl f => inl (RegistrationFlow (Some f))
      | inr e => inr e
      end
  | LoginStore =>
      match LoginFlowPersister d rid with
      | inl f => inl (LoginFlow (Some f))
      | inr e => inr e
      end
  | SettingsStore =>
      match SettingsFlowPersister d rid with
      | inl f => inl (SettingsFlow (Some f))
      | inr e => inr e
      end
  end.

Definition holds (d : registrationStrategyDependencies) (st : Store)
    (rid : UUID) : Prop :=
  ∃ f, lookupStore d st rid = inl f.

(** The resolver of the spec, for any probe order: the first hit. *)
Fixpoint resolve (order : list Store) (d : registrationStrategyDependencies)
    (rid : UUID) : option Flow :=
  match order with
  | [] => None
  | st :: order' =>
      match lookupStore d st rid with
      | inl f => Some f
      | inr _ => resolve order' d rid
      end
  end.

Definition probeOrder : list Store :=
  [RegistrationStore; LoginStore; SettingsStore].

Definition probeCall (rid : UUID) (st : Store) : Call :=
  match st with
  | RegistrationStore => GetRegistrationFlow rid
  | LoginStore => GetLoginFlow rid
  | SettingsStore => GetSettingsFlow rid
  end.

(** The stores of [order] up to and including the first that holds the
    id. *)
Fixpoint probedStores (order : list Store)
    (d : registrationStrategyDependencies) (rid : UUID) : list Store :=
  match order with
  | [] => []
  | st :: order' =>
      match lookupStore d st rid with
      | inl _ => [st]
      | inr _ => st :: probedStores order' d rid
      end
  end.

Definition is_probe (c : Call) : bool :=
  match c with
  | GetRegistrationFlow _ | GetLoginFlow _ | GetSettingsFlow _ => true
  | _ => false
  end.

Definition is_session_lookup (c : Call) : bool :=
  match c with FetchFromRequest => true | _ => false end.

Definition is_validity_check (c : Call) : bool :=
  match c with
  | RegistrationValid _ | LoginValid _ | SettingsValid _ _ => true
  | _ => false
  end.

Definition probes (t : list Call) : list Call :=
  filter (λ c, is_probe c = true) t.

Definition session_lookups (t : list Call) : nat :=
  length (filter (λ c, is_session_lookup c = true) t).

Definition validity_checks (t : list Call) : nat :=
  length (filter (λ c, is_validity_check c = true) t).

(** The execution mode of the flow behind an interface value. *)
Definition flowType (f : Flow) : option FlowType :=
  match f with
  | RegistrationFlow (Some rf) => Some (registration.Type_ rf)
  | LoginFlow (Some lf) => Some (login.Type_ lf)
  | SettingsFlow (Some sf) => Some (settings.Type_ sf)
  | _ => None
  end.

(** The reading of the session rule that takes it to hold for every
    settings flow, whatever its content: with no session to fetch, the
    validation of a resolved settings flow asks for the session once and
    fails with the error of that lookup. *)
Definition settings_always_need_session (d : registrationStrategyDependencies)
    (ext : Externals) (r : Request) (rid : UUID) : Prop :=
  ∀ sf e,
    resolve probeOrder d rid = Some (SettingsFlow (Some sf)) →
    SessionManager_FetchFromRequest d r = inr e →
    result (validateFlow d ext r rid)
    = Returned (SettingsFlow (Some sf), Some e)
    ∧ session_lookups (trace (validateFlow d ext r rid)) = 1.

End ResolverSpec.

(** ** Reading the result of registration error rendering *)

Section ResponderSpec.

Import Strategy ui.

Definition provider_nodes (c : Container) : nat :=
  length (filter (λ n, is_provider_node n = true) (Nodes c)).

(** The rendering rule read with the token comparison in it: after
    [handleError] the registration flow carries a CSRF token other than
    the one it carried before, one provider node, and, when staged traits
    are present, the pre-populated trait nodes of the identity schema. *)
Definition renders_with_new_token (d : registrationStrategyDependencies)
    (ext : Externals) (r : Request) (rf : registration.Flow)
    (provider : string) (traits : option (list Byte.byte))
    (err : option error) : Prop :=
  ∃ rf' e',
    handleError d ext r (RegistrationFlow (Some rf)) provider traits err
    = ([], Returned (RegistrationFlow (Some rf'), e'))
    ∧ csrf_token (registration.UI rf') ≠ csrf_token (registration.UI rf)
    ∧ provider_nodes (registration.UI rf') = 1
    ∧ ∀ t, traits = Some t →
        ∃ traitNodes,
          NodesFromJSONSchema ext OpenIDConnectGroup
            (DefaultIdentityTraitsSchemaURL d) = inl traitNodes
          ∧ Nodes (registration.UI rf')
            = NewCSRFNode (GenerateCSRFToken d r)
                :: NewProviderNode provider InfoRegistrationContinue
                :: Nodes (UpdateNodeValues (Flatten ext t) "traits"
                            {| Nodes := traitNodes |}).

End ResponderSpec.

(** ** strategy.go, the rest of package strategy *)

Module StrategyRest.

Import samlsp samlstrategy ui Strategy.

Definition RouteBase : string := "/self-service/methods/saml".
Definition RouteAcs : string := RouteBase +:+ "/acs".
Definition RouteAuth : string := RouteBase +:+ "/browser".

(** [fmt.Sprintf("%s:%s", provider, subject)]. *)
Definition uid (provider subject : string) : string :=
  provider +:+ ":" +:+ subject.

(** The strings [uid] is safe on: no colon in them. *)
Fixpoint colon_free (s : string) : bool :=
  match s with
  | EmptyString => true
  | String c s' => if decide (c = ":"%char) then false else colon_free s'
  end.

Record authCodeContainer := {
  FlowID : string;
  State : string;
  Traits : list Byte.byte
}.

(** What [validateCallback] reaches besides the stores: the continuity
    manager, which hands back the payload stored under [sessionName] at
    initiation, and [x.ParseUUID]. *)
Record callbackDependencies := {
  sessionName : string;
  ContinuityManager_Continue : Request → string → authCodeContainer + error;
  ParseUUID : string → UUID
}.

Definition quote : string := String (Ascii.ascii_of_nat 34) EmptyString.

(** The reason of line 346, [%s] filled with the two query parameters. *)
Definition providerErrorReason (error description : string) : string :=
  "Unable to complete OpenID Connect flow because the OpenID Provider returned error "
    +:+ quote +:+ error +:+ quote +:+ ": " +:+ description.

Section WithStrategy.

Context (d : registrationStrategyDependencies) (ext : Externals)
        (cd : callbackDependencies).

(** [validateCallback]: the flow, the pointer to the container and the
    error. *)
Definition validateCallback (r : Request)
  : handler (Flow * option authCodeContainer * option error) :=
  match ContinuityManager_Continue cd r (sessionName cd) with
  | inr err => mret (NilFlow, None, Some err)
  | inl cntnr =>
      '(req, err) ← validateFlow d ext r (ParseUUID cd (FlowID cntnr));
      match err with
      | Some _ => mret (NilFlow, Some cntnr, err)
      | None =>
          if bool_decide (Query_Get (Query r) "error" ≠ "") then
            mret (req, Some cntnr,
                  Some (ErrBadRequest
                          (providerErrorReason
                             (Query_Get (Query r) "error")
                             (Query_Get (Query r) "error_description"))))
          else mret (req, Some cntnr, None)
      end
  end.

(** [populateMethod]: the container afterwards and the error. *)
Definition populateMethod (r : Request) (c : Container)
  : Container * option error :=
  let '(_, err) := Config d ext in
  match err with
  | Some _ => (c, err)
  | None => (SetCSRF (GenerateCSRFToken d r) c, None)
  end.

End WithStrategy.

End StrategyRest.


(** ** The rest of the handler with the package variable *)

Module SamlGlobalRest.

Import samlsp SamlGlobal.

Definition is_metadata_fetch (c : Call) : bool :=
  match c with FetchMetadata _ => true | _ => false end.

(** The dependencies [d] with another public URL. *)
Definition withPublicURL (d : handlerDependencies) (u : URL) : handlerDependencies :=
  {| SelfServiceStrategyConfig := SelfServiceStrategyConfig d;
     SelfServiceBrowserDefaultReturnTo := SelfServiceBrowserDefaultReturnTo d;
     SelfPublicURL := u;
     SessionManager_FetchFromRequest := SessionManager_FetchFromRequest d |}.

Section WithHandler.

Context (d : handlerDependencies) (ext : Externals).

(** [submitMetadata]; the result is the package variable afterwards.  The
    error of [instantiateMiddleware] is not looked at. *)
Definition submitMetadata (samlMiddleware : option Middleware) (r : Request)
  : handler (option Middleware) :=
  g ← match samlMiddleware with
      | None =>
          '(g, _) ← instantiateMiddleware d ext samlMiddleware r;
          mret g
      | Some _ => mret samlMiddleware
      end;
  deref g;;
  call ServeMetadata;;
  mret g.

End WithHandler.

End SamlGlobalRest.

(** ** The rest of handler.go *)

Module SamlHandlerRest.

Import samlsp SamlGlobal.

(** What [instantiateMiddleware] reads from [*config.Config]. *)
Record Config := {
  SamlPublicCertPath : URL;
  SamlPrivateKeyPath : URL;
  SamlIdpMetadataUrl : URL;
  SelfServiceBrowserDefaultReturnTo : URL;
  SelfPublicURL : URL
}.

Definition with_acs (m : Middleware) (acs : URL) : Middleware :=
  {| AllowIDPInitiated := AllowIDPInitiated m;
     GetTrackedRequests := GetTrackedRequests m;
     ParseResponse := ParseResponse m;
     DefaultRedirectURI := DefaultRedirectURI m;
     AcsURL := acs;
     MetadataURL := MetadataURL m;
     EntityID := EntityID m |}.

Section WithExternals.

Context (ext : Externals).

(** [instantiateMiddleware] of handler.go (lines 168 to 213). *)
Definition instantiateMiddleware (conf : Config)
  : handler (option Middleware * option error) :=
  match LoadX509KeyPair ext (url_Path (SamlPublicCertPath conf))
          (url_Path (SamlPrivateKeyPath conf)) with
  | inr err => mret (None, Some err)
  | inl keyPair =>
  cert0 ← lift (index (kp_Certificate keyPair) 0);
  match ParseCertificate ext cert0 with
  | inr err => mret (None, Some err)
  | inl Leaf =>
  match url_Parse ext (url_String (SamlIdpMetadataUrl conf)) with
  | inr err => mret (None, Some err)
  | inl idpMetadataURL =>
  call (FetchMetadata (url_String idpMetadataURL));;
  let '(idpMetadata, err) := FetchMetadataFrom ext idpMetadataURL in
  match err with
  | Some _ => mret (None, err)
  | None =>
  match url_Parse ext (url_String (SelfServiceBrowserDefaultReturnTo conf)) with
  | inr err => mret (None, Some err)
  | inl rootURL =>
  key ← match kp_PrivateKey keyPair with
        | RSAPrivateKey k => mret k
        | OtherPrivateKey => panics TypeAssertionFailed
        end;
  call SamlspNew;;
  match samlsp_New ext
          {| opt_URL := rootURL; opt_Key := key; opt_Certificate := Leaf;
             opt_IDPMetadata := idpMetadata; opt_SignRequest := true |} with
  | inr err => mret (None, Some err)
  | inl samlMiddleware =>
  match url_Parse ext (url_String (SelfPublicURL conf) +:+ SamlHandler.RouteSamlAcs) with
  | inr err => mret (None, Some err)
  | inl u => mret (Some (with_acs samlMiddleware u), None)
  end end end end end end end.

(** [NewHandler]: [d.Config(ctx)] is [conf]. *)
Definition NewHandler (d : SamlHandler.handlerDependencies) (conf : Config)
  : handler SamlHandler.Handler :=
  '(middleware, err) ← instantiateMiddleware conf;
  match err with
  | Some e => panics (ErrorPanic e)
  | None => mret {| SamlHandler.d := d; SamlHandler.samlMiddleware := middleware |}
  end.

End WithExternals.

End SamlHandlerRest.

(** ** More data the statements are checked on *)

Module Example2.

Import samlsp samlstrategy ui.

(** The continuity payload names flow 1; the IDP reported nothing. *)
Definition callbackDeps : StrategyRest.callbackDependencies :=
  {| StrategyRest.sessionName := "ory_kratos_saml_auth_code_session";
     StrategyRest.ContinuityManager_Continue := λ _ _,
       inl {| StrategyRest.FlowID := "00000000-0000-0000-0000-000000000001";
              StrategyRest.State := "state-1";
              StrategyRest.Traits := [] |};
     StrategyRest.ParseUUID := λ s,
       if decide (s = "00000000-0000-0000-0000-000000000001") then 1%N else 0%N |}.

(** The callback of a user who cancelled at the IDP. *)
Definition cancelled : Request :=
  {| Method := "POST"; RequestPath := "/self-service/methods/saml/acs";
     Query := [("error", "access_denied"); ("error_description", "user cancelled")];
     Cookie := "ory_kratos_continuity=abc" |}.

(** The collaborators of [Example.ext] around another engine pointer. *)
Definition extWithEngine (m : option Middleware) : Strategy.Externals :=
  {| Strategy.Error := Strategy.Error Example.ext;
     Strategy.StrictDecode := Strategy.StrictDecode Example.ext;
     Strategy.url_Parse := Strategy.url_Parse Example.ext;
     Strategy.NodesFromJSONSchema := Strategy.NodesFromJSONSchema Example.ext;
     Strategy.Flatten := Strategy.Flatten Example.ext;
     Strategy.registration_Valid := Strategy.registration_Valid Example.ext;
     Strategy.login_Valid := Strategy.login_Valid Example.ext;
     Strategy.settings_Valid := Strategy.settings_Valid Example.ext;
     Strategy.collection_Provider := Strategy.collection_Provider Example.ext;
     Strategy.GetMiddleware := m;
     Strategy.processLoginOrRegister :=
       Strategy.processLoginOrRegister Example.ext |}.

(** The key pair cannot be loaded: engine construction fails. *)
Definition globalExtFailing : SamlGlobal.Externals :=
  {| SamlGlobal.StrictDecode := SamlGlobal.StrictDecode Example.globalExt;
     SamlGlobal.LoadX509KeyPair := λ _ _,
       inr (ErrOther "open /etc/config/sp.crt: no such file or directory");
     SamlGlobal.ParseCertificate := SamlGlobal.ParseCertificate Example.globalExt;
     SamlGlobal.url_Parse := SamlGlobal.url_Parse Example.globalExt;
     SamlGlobal.FetchMetadataFrom := SamlGlobal.FetchMetadataFrom Example.globalExt;
     SamlGlobal.ReadFile := SamlGlobal.ReadFile Example.globalExt;
     SamlGlobal.pem_Decode := SamlGlobal.pem_Decode Example.globalExt;
     SamlGlobal.Metadata := SamlGlobal.Metadata Example.globalExt;
     SamlGlobal.samlsp_New := SamlGlobal.samlsp_New Example.globalExt |}.

(** A public URL without the trailing slash of [Example.globalDeps]. *)
Definition bareDeps : SamlGlobal.handlerDependencies :=
  SamlGlobalRest.withPublicURL Example.globalDeps
    {| url_String := "https://kratos.example"; url_Path := "" |}.

Definition keyConfig : SamlHandlerRest.Config :=
  {| SamlHandlerRest.SamlPublicCertPath :=
       {| url_String := "file:///etc/config/sp.crt"; url_Path := "/etc/config/sp.crt" |};
     SamlHandlerRest.SamlPrivateKeyPath :=
       {| url_String := "file:///etc/config/sp.key"; url_Path := "/etc/config/sp.key" |};
     SamlHandlerRest.SamlIdpMetadataUrl :=
       {| url_String := "https://idp.example/metadata"; url_Path := "/metadata" |};
     SamlHandlerRest.SelfServiceBrowserDefaultReturnTo :=
       {| url_String := "https://app.example/welcome"; url_Path := "/welcome" |};
     SamlHandlerRest.SelfPublicURL :=
       {| url_String := "https://kratos.example"; url_Path := "" |} |}.

(** The engine [SamlGlobal.buildMiddleware] makes of [Example.globalDeps]
    and [Example.globalExt]. *)
Definition builtEngine : Middleware :=
  SamlGlobal.with_urls Example.middleware
    {| url_String := "https://kratos.example/self-service/methods/saml/acs";
       url_Path := "/" |}
    {| url_String := "https://kratos.example/self-service/methods/saml/metadata";
       url_Path := "/" |}.

End Example2.

(** ** Reading the state of racing requests *)

Module ConcurrentSpec.

Import Concurrent.

(** How often a goroutine has constructed an engine so far. *)
Definition built (g : goroutine) : nat :=
  length (filter (λ c, is_construction c = true) (calls g)).

(** A goroutine has constructed at most once, and not at all while it has
    not left [instantiateMiddleware]. *)
Definition settled (g : goroutine) : Prop :=
  (built g ≤ 1)%nat
  ∧ (at_ g = AtCheck ∨ at_ g = AtBuild → built g = 0).

End ConcurrentSpec.

(** * Part II: properties *)

(** Unfolds the monad so that a handler reads as its trace and outcome. *)
Ltac handler_simpl :=
  unfold result, trace, call, panics, lift, deref;
  unfold mbind, mret, handler_bind, handler_ret; simpl.

Ltac handler_cases :=
  repeat (handler_simpl; case_match; simplify_eq/=; try done).

(** ** Attribute extraction *)

Section Extraction.

Import samlsp Strategy.

Lemma appendValue_valuesAt c m v k :
  valuesAt (appendValue c m v) k
  = valuesAt m k ++ (if decide (c = k) then [Value v] else []).
Proof.
  unfold valuesAt, appendValue.
  destruct (decide (c = k)) as [->|Hne].
  - by rewrite lookup_insert_eq.
  - rewrite lookup_insert_ne; [|done]. by rewrite app_nil_r.
Qed.

Lemma appendValue_no_empty c m v :
  no_empty_entry m → no_empty_entry (appendValue c m v).
Proof.
  intros Hm k. unfold appendValue.
  destruct (decide (c = k)) as [->|Hne].
  - rewrite lookup_insert_eq. intros [= Heq].
    by destruct (default [] (m !! k)).
  - rewrite lookup_insert_ne; [|done]. apply Hm.
Qed.

Lemma collectAttribute_valuesAt m attr k :
  valuesAt (collectAttribute m attr) k
  = valuesAt m k
      ++ (if decide (claimName attr = k) then Value <$> Values attr else []).
Proof.
  unfold collectAttribute.
  generalize (claimName attr) as c. intros c.
  induction (Values attr) as [|v vs IH] using rev_ind.
  - simpl. by destruct (decide (c = k)); rewrite app_nil_r.
  - rewrite foldl_snoc, appendValue_valuesAt, IH.
    destruct (decide (c = k)).
    + by rewrite fmap_app, !app_assoc.
    + by rewrite !app_nil_r.
Qed.

Lemma collectAttribute_no_empty m attr :
  no_empty_entry m → no_empty_entry (collectAttribute m attr).
Proof.
  unfold collectAttribute. revert m.
  induction (Values attr) as [|v vs IH]; intros m Hm; [done|].
  simpl. by apply IH, appendValue_no_empty.
Qed.

Lemma collectStatement_valuesAt m st k :
  valuesAt (collectStatement m st) k
  = valuesAt m k
      ++ (attr ← Attributes st;
          if decide (claimName attr = k) then Value <$> Values attr else []).
Proof.
  unfold collectStatement. revert m.
  induction (Attributes st) as [|attr attrs IH]; intros m; simpl.
  - by rewrite app_nil_r.
  - by rewrite IH, collectAttribute_valuesAt, app_assoc.
Qed.

Lemma collectStatement_no_empty m st :
  no_empty_entry m → no_empty_entry (collectStatement m st).
Proof.
  unfold collectStatement. revert m.
  induction (Attributes st) as [|attr attrs IH]; intros m Hm; [done|].
  simpl. by apply IH, collectAttribute_no_empty.
Qed.

Lemma foldl_collectStatement_valuesAt m sts k :
  valuesAt (foldl collectStatement m sts) k
  = valuesAt m k
      ++ (st ← sts; attr ← Attributes st;
          if decide (claimName attr = k) then Value <$> Values attr else []).
Proof.
  revert m. induction sts as [|st sts IH]; intros m; simpl.
  - by rewrite app_nil_r.
  - by rewrite IH, collectStatement_valuesAt, app_assoc.
Qed.

Lemma foldl_collectStatement_no_empty m sts :
  no_empty_entry m → no_empty_entry (foldl collectStatement m sts).
Proof.
  revert m. induction sts as [|st sts IH]; intros m Hm; [done|].
  simpl. by apply IH, collectStatement_no_empty.
Qed.

(** The key the code computes is the key of the rule. *)
Lemma claimName_namedBy k attr :
  namedBy k attr = bool_decide (claimName attr = k).
Proof.
  unfold namedBy, claimName.
  destruct (FriendlyName attr) as [|c fn] eqn:Hfn; [done|].
  by rewrite decide_False.
Qed.

Lemma claimValues_code k a :
  claimValues k a
  = (st ← AttributeStatements a;
     attr ← Attributes st;
     if decide (claimName attr = k) then Value <$> Values attr else []).
Proof.
  unfold claimValues.
  apply list_bind_ext; [|done]. intros st.
  apply list_bind_ext; [|done]. intros attr.
  rewrite claimName_namedBy. by case_bool_decide; [rewrite decide_True|rewrite decide_False].
Qed.

Lemma collectAttributes_lookup a k :
  collectAttributes a !! k
  = match claimValues k a with [] => None | vs => Some vs end.
Proof.
  pose proof (foldl_collectStatement_valuesAt ∅ (AttributeStatements a) k) as Hv.
  pose proof (foldl_collectStatement_no_empty ∅ (AttributeStatements a)) as Hn.
  fold (collectAttributes a) in Hv, Hn. rewrite <- claimValues_code in Hv.
  unfold valuesAt in Hv. rewrite lookup_empty in Hv. simpl in Hv.
  specialize (Hn (λ k, ltac:(by rewrite lookup_empty)) k).
  destruct (collectAttributes a !! k) as [vs|]; simpl in Hv; rewrite <- Hv.
  - destruct vs; [done|done].
  - done.
Qed.

End Extraction.

(** C5. When the engine hands back a parsed assertion,
    [getAttributesFromAssertion] returns without error a map that binds a
    claim name exactly when some attribute of that name (the friendly name
    when it is not empty, else the raw name) carries a value, to all values
    of all such attributes of all statements in document order, repeated
    values kept; with no attribute statement the map is empty. *)
Theorem getAttributesFromAssertion_extracts
    (r : Request) (m : samlsp.Middleware) (a : samlsp.Assertion) :
  samlsp.ParseResponse m r (Strategy.possibleRequestIDs m r) = (Some a, None) →
  ∃ attributes,
    result (Strategy.getAttributesFromAssertion r m) = Returned (attributes, None)
    ∧ (∀ k, attributes !! k
            = match claimValues k a with [] => None | vs => Some vs end)
    ∧ (samlsp.AttributeStatements a = [] → attributes = ∅).
Proof.
  intros Hparse. exists (Strategy.collectAttributes a).
  unfold Strategy.getAttributesFromAssertion. rewrite Hparse. simpl.
  split; [done|]. split.
  - intros k. apply collectAttributes_lookup.
  - intros Hnil. unfold Strategy.collectAttributes. by rewrite Hnil.
Qed.

Lemma getAttributesFromAssertion_extracts_witness :
  ∃ attributes,
    result (Strategy.getAttributesFromAssertion Example.request Example.middleware)
    = Returned (attributes, None)
    ∧ (∀ k, attributes !! k
            = match claimValues k Example.assertion with
              | [] => None | vs => Some vs end)
    ∧ (samlsp.AttributeStatements Example.assertion = [] → attributes = ∅).
Proof.
  apply (getAttributesFromAssertion_extracts Example.request Example.middleware
           Example.assertion).
  reflexivity.
Defined.

(** The example assertion: friendly names win over raw names, a raw name
    is used where the friendly name is empty, order and repetition are
    kept, an attribute without values leaves no key. *)
Example collectAttributes_example :
  Strategy.collectAttributes Example.assertion !! "email"
  = Some ["alice@example.com"; "a@example.com"; "alice@example.com"]
  ∧ Strategy.collectAttributes Example.assertion !! "uid" = Some ["alice"]
  ∧ Strategy.collectAttributes Example.assertion !! "mail" = None
  ∧ Strategy.collectAttributes Example.assertion !! "groups" = None.
Proof. vm_compute. done. Qed.

(** ** Flow resolution and validation *)

Section Resolver.

Import Strategy.

Context (d : registrationStrategyDependencies) (ext : Externals).

(** [validateFlow] never panics. *)
Lemma validateFlow_returns r rid :
  ∃ f err, result (validateFlow d ext r rid) = Returned (f, err).
Proof.
  unfold validateFlow. handler_cases; eauto.
Qed.

(** The flow handed back is the first hit in the order registration,
    login, settings, whatever the validation says about it. *)
Lemma validateFlow_first_hit r rid f :
  IsZeroUUID rid = false →
  resolve probeOrder d rid = Some f →
  ∃ err, result (validateFlow d ext r rid) = Returned (f, err).
Proof.
  intros Hz. unfold validateFlow, resolve, probeOrder, lookupStore.
  rewrite Hz. handler_cases; intros [= <-]; eauto.
Qed.

Lemma validateFlow_no_hit r rid :
  IsZeroUUID rid = false →
  resolve probeOrder d rid = None →
  ∃ e, SettingsFlowPersister d rid = inr e
       ∧ result (validateFlow d ext r rid)
         = Returned (SettingsFlow None, Some e).
Proof.
  intros Hz. unfold validateFlow, resolve, probeOrder, lookupStore.
  rewrite Hz. handler_cases; intros _; eauto.
Qed.

Lemma validateFlow_probes r rid :
  IsZeroUUID rid = false →
  probes (trace (validateFlow d ext r rid))
  = probeCall rid <$> probedStores probeOrder d rid.
Proof.
  intros Hz. unfold validateFlow, probedStores, probeOrder, lookupStore.
  rewrite Hz. handler_cases.
Qed.

(** With one holder only, every order that asks the holder finds its
    flow. *)
Lemma resolve_unique order st rid f :
  lookupStore d st rid = inl f →
  (∀ st', holds d st' rid → st' = st) →
  st ∈ order →
  resolve order d rid = Some f.
Proof.
  intros Hst Huniq. induction order as [|st' order IH]; intros Hin.
  - by apply elem_of_nil in Hin.
  - simpl. destruct (lookupStore d st' rid) as [f'|e] eqn:Hl.
    + assert (st' = st) as -> by (apply Huniq; by exists f').
      congruence.
    + apply elem_of_cons in Hin as [->|Hin]; [congruence|by apply IH].
Qed.

End Resolver.

(** C4. For a non-zero flow id [validateFlow] returns; it asks the stores
    in the order registration, login, settings and stops at the first that
    holds the id; the flow it returns is that first hit; when no store
    holds the id it returns the error of the settings store, the last one
    asked; and when one store only holds the id, the flow returned is that
    store's flow, which is also what the resolver finds in any other order
    that asks that store. *)
Theorem validateFlow_resolves
    (d : Strategy.registrationStrategyDependencies) (ext : Strategy.Externals)
    (r : Request) (rid : UUID) :
  IsZeroUUID rid = false →
  ∃ f err,
    result (Strategy.validateFlow d ext r rid) = Returned (f, err)
    ∧ probes (trace (Strategy.validateFlow d ext r rid))
      = probeCall rid <$> probedStores probeOrder d rid
    ∧ match resolve probeOrder d rid with
      | Some f' => f = f'
      | None => f = SettingsFlow None
                ∧ ∃ e, Strategy.SettingsFlowPersister d rid = inr e ∧ err = Some e
      end
    ∧ ∀ st f',
        lookupStore d st rid = inl f' →
        (∀ st', holds d st' rid → st' = st) →
        f = f' ∧ ∀ order, st ∈ order → resolve order d rid = Some f.
Proof.
  intros Hz.
  destruct (resolve probeOrder d rid) as [f|] eqn:Hres.
  - destruct (validateFlow_first_hit d ext r rid f Hz Hres) as [err Hv].
    exists f, err. split; [done|]. split; [by apply validateFlow_probes|].
    split; [done|]. intros st f' Hst Huniq.
    assert (resolve probeOrder d rid = Some f') as Hf'.
    { apply (resolve_unique d probeOrder st); [done|done|].
      unfold probeOrder. destruct st; set_solver. }
    assert (f = f') as -> by congruence.
    split; [done|]. intros order Hin.
    by apply (resolve_unique d order st).
  - destruct (validateFlow_no_hit d ext r rid Hz Hres) as (e & He & Hv).
    exists (SettingsFlow None), (Some e). split; [done|].
    split; [by apply validateFlow_probes|]. split; [eauto|].
    intros st f' Hst Huniq.
    assert (resolve probeOrder d rid = Some f') as Hf'.
    { apply (resolve_unique d probeOrder st); [done|done|].
      unfold probeOrder. destruct st; set_solver. }
    congruence.
Qed.

Lemma validateFlow_resolves_witness :
  ∃ f err,
    result (Strategy.validateFlow Example.d Example.ext Example.request 3%N)
    = Returned (f, err)
    ∧ probes (trace (Strategy.validateFlow Example.d Example.ext Example.request 3%N))
      = probeCall 3%N <$> probedStores probeOrder Example.d 3%N
    ∧ match resolve probeOrder Example.d 3%N with
      | Some f' => f = f'
      | None => f = SettingsFlow None
                ∧ ∃ e, Strategy.SettingsFlowPersister Example.d 3%N = inr e
                       ∧ err = Some e
      end
    ∧ ∀ st f',
        lookupStore Example.d st 3%N = inl f' →
        (∀ st', holds Example.d st' 3%N → st' = st) →
        f = f' ∧ ∀ order, st ∈ order → resolve order Example.d 3%N = Some f.
Proof.
  apply (validateFlow_resolves Example.d Example.ext Example.request 3%N).
  reflexivity.
Defined.

(** The stores asked for the example ids: flow 1 stops the probe at the
    registration store, flow 3 is found last, flow 5 nowhere, and then the
    error is the one of the settings store. *)
Example validateFlow_examples :
  probes (trace (Strategy.validateFlow Example.d Example.ext Example.request 1%N))
  = [GetRegistrationFlow 1%N]
  ∧ probes (trace (Strategy.validateFlow Example.d Example.ext Example.request 3%N))
    = [GetRegistrationFlow 3%N; GetLoginFlow 3%N; GetSettingsFlow 3%N]
  ∧ result (Strategy.validateFlow Example.d Example.ext Example.request 5%N)
    = Returned (SettingsFlow None, Some (ErrOther "settings flow not found")).
Proof. vm_compute. done. Qed.

(** C8. A flow found by [validateFlow] whose execution mode is not browser
    is returned with [ErrAPIFlowNotSupported], and neither the flow's own
    validity check nor the session lookup has been called by then. *)
Theorem validateFlow_rejects_api_flow
    (d : Strategy.registrationStrategyDependencies) (ext : Strategy.Externals)
    (r : Request) (rid : UUID) (f : Flow) :
  IsZeroUUID rid = false →
  resolve probeOrder d rid = Some f →
  flowType f ≠ Some TypeBrowser →
  result (Strategy.validateFlow d ext r rid)
  = Returned (f, Some ErrAPIFlowNotSupported)
  ∧ validity_checks (trace (Strategy.validateFlow d ext r rid)) = 0
  ∧ session_lookups (trace (Strategy.validateFlow d ext r rid)) = 0.
Proof.
  intros Hz. unfold Strategy.validateFlow, resolve, probeOrder, lookupStore.
  rewrite Hz.
  handler_cases; intros [= <-] Hty; simpl in Hty; try done.
  all: exfalso;
    match goal with
    | H : bool_decide _ = false |- _ =>
        apply bool_decide_eq_false in H; apply H; intros Heq;
        apply Hty; by rewrite Heq
    end.
Qed.

Lemma validateFlow_rejects_api_flow_witness :
  result (Strategy.validateFlow Example.d Example.ext Example.request 2%N)
  = Returned (LoginFlow (Some {| login.ID := 2%N; login.Type_ := TypeAPI;
                                 login.UI := Example.emptyUI;
                                 login.CSRFToken := "" |}),
              Some ErrAPIFlowNotSupported)
  ∧ validity_checks
      (trace (Strategy.validateFlow Example.d Example.ext Example.request 2%N)) = 0
  ∧ session_lookups
      (trace (Strategy.validateFlow Example.d Example.ext Example.request 2%N)) = 0.
Proof.
  apply (validateFlow_rejects_api_flow Example.d Example.ext Example.request 2%N).
  - reflexivity.
  - reflexivity.
  - simpl. intros [= H].
Defined.

(** C7, as stated, fails: the settings flow 4 of the example has execution
    mode API; with no session to fetch its validation fails with
    [ErrAPIFlowNotSupported], not with the error of the session lookup, and
    the session manager is never asked. *)
Lemma settings_api_flow_skips_session :
  ¬ settings_always_need_session Example.d Example.ext Example.request 4%N.
Proof.
  intros Hclaim.
  destruct (Hclaim {| settings.ID := 4%N; settings.Type_ := TypeAPI;
                      settings.UI := Example.emptyUI;
                      settings.IdentityID := 9%N |}
                   ErrNoActiveSessionFound eq_refl eq_refl) as [Hres _].
  vm_compute in Hres. discriminate Hres.
Qed.

(** C7, amended. Only a settings flow of browser mode makes [validateFlow]
    ask for the session, once: when the lookup fails, the flow is returned
    with the error of the lookup and the flow's validity check is not
    called; when it succeeds, the session is handed to the flow's validity
    check, whose verdict is returned.  A settings flow of another mode is
    rejected with [ErrAPIFlowNotSupported] before any session lookup, and
    for registration flows, login flows and unknown ids the session is
    never looked up. *)
Theorem validateFlow_session
    (d : Strategy.registrationStrategyDependencies) (ext : Strategy.Externals)
    (r : Request) (rid : UUID) :
  IsZeroUUID rid = false →
  let v := Strategy.validateFlow d ext r rid in
  match resolve probeOrder d rid with
  | Some (SettingsFlow (Some sf)) =>
      if decide (settings.Type_ sf = TypeBrowser) then
        session_lookups (trace v) = 1
        ∧ match Strategy.SessionManager_FetchFromRequest d r with
          | inr e =>
              result v = Returned (SettingsFlow (Some sf), Some e)
              ∧ validity_checks (trace v) = 0
          | inl sess =>
              result v
              = Returned (SettingsFlow (Some sf), Strategy.settings_Valid ext sf sess)
              ∧ filter (λ c, is_validity_check c = true) (trace v)
                = [SettingsValid rid sess]
          end
      else
        result v = Returned (SettingsFlow (Some sf), Some ErrAPIFlowNotSupported)
        ∧ session_lookups (trace v) = 0
  | _ => session_lookups (trace v) = 0
  end.
Proof.
  intros Hz. unfold Strategy.validateFlow, resolve, probeOrder, lookupStore.
  rewrite Hz.
  destruct (Strategy.RegistrationFlowPersister d rid) as [rf|e1].
  { handler_cases. }
  destruct (Strategy.LoginFlowPersister d rid) as [lf|e2].
  { handler_cases. }
  destruct (Strategy.SettingsFlowPersister d rid) as [sf|e3]; [|done].
  destruct (decide (settings.Type_ sf = TypeBrowser)) as [Hb|Hb].
  - handler_simpl. rewrite bool_decide_eq_false_2 by (intros Hne; by apply Hne).
    destruct (Strategy.SessionManager_FetchFromRequest d r) as [sess|e];
      handler_simpl; [|done].
    destruct (Strategy.settings_Valid ext sf sess); done.
  - handler_simpl. by rewrite bool_decide_eq_true_2.
Qed.

Lemma validateFlow_session_witness :
  let v := Strategy.validateFlow Example.d Example.ext Example.request 3%N in
  session_lookups (trace v) = 1
  ∧ result v
    = Returned (SettingsFlow (Some {| settings.ID := 3%N;
                                      settings.Type_ := TypeBrowser;
                                      settings.UI := Example.emptyUI;
                                      settings.IdentityID := 9%N |}),
                Some ErrNoActiveSessionFound)
  ∧ validity_checks (trace v) = 0.
Proof.
  exact (validateFlow_session Example.d Example.ext Example.request 3%N eq_refl).
Defined.

(** ** The callback handler *)

(** When [processLoginOrRegister] fails and hands back a flow,
    [handleCallback] forwards the error once, with that flow, and returns. *)
Lemma handleCallback_forwards_with_flow
    (d : Strategy.registrationStrategyDependencies) (ext : Strategy.Externals)
    (r : Request) (m : samlsp.Middleware) (a : samlsp.Assertion)
    (tp : list Call) (p : samlstrategy.Provider)
    (claims : option samlstrategy.Claims)
    (t : list Call) (f : Flow) (e : error) :
  Strategy.GetMiddleware ext = Some m →
  samlsp.ParseResponse m r (Strategy.possibleRequestIDs m r) = (Some a, None) →
  Strategy.provider d ext r = (tp, Returned (Some p, None)) →
  samlstrategy.ClaimsOf p (Strategy.collectAttributes a) = (claims, None) →
  Strategy.processLoginOrRegister ext r p claims = (t, Returned (Some f, Some e)) →
  ∃ c, Strategy.forwardError r f (Some e) = ([c], Returned ())
       ∧ is_flow_error_write c = true
       ∧ Strategy.handleCallback d ext r
         = (ParseResponseOf (Strategy.possibleRequestIDs m r) :: tp ++ t ++ [c],
            Returned ()).
Proof.
  intros Hm Hparse Hprov Hclaims Hproc.
  unfold Strategy.handleCallback, Strategy.getAttributesFromAssertion.
  rewrite Hm. handler_simpl. rewrite Hparse. handler_simpl.
  rewrite Hprov. handler_simpl. rewrite Hclaims, Hproc. handler_simpl.
  destruct f as [|lf|rf|sf]; handler_simpl; eexists; (split; [done|]);
    (split; [done|]); done.
Qed.

(** C1, where the code departs from it. When [processLoginOrRegister]
    fails without a flow (nil pointer), [handleCallback] dereferences the
    nil pointer on the way to [forwardError]: the handler panics and has
    itself called the flow-typed error responder not once. *)
Theorem handleCallback_nil_flow_panics
    (d : Strategy.registrationStrategyDependencies) (ext : Strategy.Externals)
    (r : Request) (m : samlsp.Middleware) (a : samlsp.Assertion)
    (tp : list Call) (p : samlstrategy.Provider)
    (claims : option samlstrategy.Claims)
    (t : list Call) (e : error) :
  Strategy.GetMiddleware ext = Some m →
  samlsp.ParseResponse m r (Strategy.possibleRequestIDs m r) = (Some a, None) →
  Strategy.provider d ext r = (tp, Returned (Some p, None)) →
  samlstrategy.ClaimsOf p (Strategy.collectAttributes a) = (claims, None) →
  Strategy.processLoginOrRegister ext r p claims = (t, Returned (None, Some e)) →
  Strategy.handleCallback d ext r
  = (ParseResponseOf (Strategy.possibleRequestIDs m r) :: tp ++ t,
     Panicked NilDereference)
  ∧ forwards (trace (Strategy.handleCallback d ext r)) = forwards (tp ++ t).
Proof.
  intros Hm Hparse Hprov Hclaims Hproc.
  unfold Strategy.handleCallback, Strategy.getAttributesFromAssertion.
  rewrite Hm. handler_simpl. rewrite Hparse. handler_simpl.
  rewrite Hprov. handler_simpl. rewrite Hclaims, Hproc. handler_simpl.
  by rewrite app_nil_r.
Qed.

Lemma handleCallback_nil_flow_panics_witness :
  Strategy.handleCallback Example.d Example.ext Example.request
  = ([ParseResponseOf [""; "id-7"]], Panicked NilDereference)
  ∧ forwards (trace (Strategy.handleCallback Example.d Example.ext Example.request))
    = 0.
Proof.
  exact (handleCallback_nil_flow_panics Example.d Example.ext Example.request
           Example.middleware Example.assertion [] Example.provider
           (Some {| samlstrategy.Subject := "alice@example.com";
                    samlstrategy.Traits := [("email", "alice@example.com")] |})
           [] Example.duplicate
           eq_refl eq_refl eq_refl eq_refl eq_refl).
Defined.

(** ** Configurations without providers *)

(** C9. When the configuration document decodes and lists no provider,
    [Strategy.provider] panics on [SAMLProviders[0]] and
    [instantiateMiddleware] panics on [SAMLProviders[len-1]], index -1;
    neither returns an error. *)
Theorem empty_provider_list_panics
    (d : Strategy.registrationStrategyDependencies) (ext : Strategy.Externals)
    (d' : SamlGlobal.handlerDependencies) (ext' : SamlGlobal.Externals)
    (c c' : samlstrategy.ConfigurationCollection)
    (g : option samlsp.Middleware) (r : Request) :
  Strategy.StrictDecode ext (Strategy.SelfServiceStrategyConfig d) = inl c →
  samlstrategy.SAMLProviders c = [] →
  SamlGlobal.StrictDecode ext' (SamlGlobal.SelfServiceStrategyConfig d') = inl c' →
  samlstrategy.SAMLProviders c' = [] →
  Strategy.provider d ext r = ([], Panicked (IndexOutOfRange 0 0))
  ∧ SamlGlobal.instantiateMiddleware d' ext' g r
    = ([], Panicked (IndexOutOfRange (-1) 0)).
Proof.
  intros Hc Hnil Hc' Hnil'. split.
  - unfold Strategy.provider, Strategy.Config. rewrite Hc. handler_simpl.
    by rewrite Hnil.
  - unfold SamlGlobal.instantiateMiddleware, SamlGlobal.buildMiddleware,
      SamlGlobal.lastProvider.
    rewrite Hc', Hnil'. by handler_simpl.
Qed.

Lemma empty_provider_list_panics_witness :
  Strategy.provider Example.d (Example.extWith Example.noProviders) Example.request
  = ([], Panicked (IndexOutOfRange 0 0))
  ∧ SamlGlobal.instantiateMiddleware Example.globalDeps
      (Example.globalExtWith Example.noProviders) None Example.request
    = ([], Panicked (IndexOutOfRange (-1) 0)).
Proof.
  exact (empty_provider_list_panics Example.d (Example.extWith Example.noProviders)
           Example.globalDeps (Example.globalExtWith Example.noProviders)
           Example.noProviders Example.noProviders None Example.request
           eq_refl eq_refl eq_refl eq_refl).
Defined.

(** With one provider configured both functions return. *)
Example configured_provider_returns :
  Strategy.provider Example.d Example.ext Example.request
  = ([], Returned (Some Example.provider, None))
  ∧ ∃ m, SamlGlobal.instantiateMiddleware Example.globalDeps Example.globalExt
           None Example.request
         = ([FetchMetadata "https://idp.example/metadata"; SamlspNew],
            Returned (Some m, None)).
Proof. split; [reflexivity|]. eexists. vm_compute. reflexivity. Qed.

(** ** The handler that owns its engine *)

(** C10. When [ParseResponse] fails, [serveAcs] calls the engine's error
    responder and goes on to [CreateSessionFromAssertion] with the
    assertion pointer the failed parse left, nil: two calls that answer the
    request, on the error path. *)
Theorem serveAcs_continues_after_error
    (h : SamlHandler.Handler) (r : Request) (m : samlsp.Middleware) (e : error) :
  SamlHandler.samlMiddleware h = Some m →
  samlsp.ParseResponse m r (SamlHandler.possibleRequestIDs m r) = (None, Some e) →
  SamlHandler.serveAcs h r
  = ([ParseResponseOf (SamlHandler.possibleRequestIDs m r);
      OnError (Some e);
      CreateSessionFromAssertion None (samlsp.DefaultRedirectURI m)],
     Returned ())
  ∧ responses (trace (SamlHandler.serveAcs h r)) = 2.
Proof.
  intros Hm Hparse. unfold SamlHandler.serveAcs.
  rewrite Hm. handler_simpl. rewrite Hparse. by handler_simpl.
Qed.

Lemma serveAcs_continues_after_error_witness :
  SamlHandler.serveAcs (Example.handlerWith Example.rejecting) Example.request
  = ([ParseResponseOf ["id-7"];
      OnError (Some (ErrOther "cannot validate signature"));
      CreateSessionFromAssertion None "/"],
     Returned ())
  ∧ responses (trace (SamlHandler.serveAcs (Example.handlerWith Example.rejecting)
                        Example.request)) = 2.
Proof.
  exact (serveAcs_continues_after_error (Example.handlerWith Example.rejecting)
           Example.request Example.rejecting
           (ErrOther "cannot validate signature") eq_refl eq_refl).
Defined.

(** On the path without error the handler answers once. *)
Example serveAcs_success :
  SamlHandler.serveAcs (Example.handlerWith Example.middleware) Example.request
  = ([ParseResponseOf [""; "id-7"];
      CreateSessionFromAssertion (Some Example.assertion) "/"],
     Returned ()).
Proof. reflexivity. Qed.

(** ** The initiation endpoint *)

(** What the handler with the package variable does, case by case of the
    session lookup, once the engine exists. *)
Lemma global_loginWithIdp_cases
    (d : SamlGlobal.handlerDependencies) (ext : SamlGlobal.Externals)
    (m : samlsp.Middleware) (r : Request) :
  SamlGlobal.loginWithIdp d ext (Some m) r
  = (match SamlGlobal.SessionManager_FetchFromRequest d r with
     | inl _ => [ErrorManagerForward None]
     | inr e =>
         if is_no_active_session e then [HandleStartAuthFlow]
         else [Redirect (url_Path (SamlGlobal.SelfServiceBrowserDefaultReturnTo d)) 307]
     end,
     Returned (Some m)).
Proof.
  unfold SamlGlobal.loginWithIdp, SamlGlobal.dispatch. handler_simpl.
  destruct (SamlGlobal.SessionManager_FetchFromRequest d r) as [sess|e];
    handler_simpl; [done|].
  by destruct (is_no_active_session e).
Qed.

(** What the handler that owns its engine does, case by case. *)
Lemma handler_loginWithIdp_cases
    (h : SamlHandler.Handler) (m : samlsp.Middleware) (r : Request) :
  SamlHandler.samlMiddleware h = Some m →
  SamlHandler.loginWithIdp h r
  = (match SamlHandler.SessionManager_FetchFromRequest (SamlHandler.d h) r with
     | inl _ =>
         [Redirect (url_Path (SamlHandler.SelfPublicURL (SamlHandler.d h))) 307;
          OnError None]
     | inr e =>
         if is_no_active_session e then [HandleStartAuthFlow; OnError (Some e)]
         else [OnError (Some e)]
     end,
     Returned ()).
Proof.
  intros Hm. unfold SamlHandler.loginWithIdp. rewrite Hm.
  destruct (SamlHandler.SessionManager_FetchFromRequest (SamlHandler.d h) r)
    as [sess|e]; handler_simpl; [done|].
  by destruct (is_no_active_session e).
Qed.

(** C3, where the code departs from it. For a request that carries an
    active session, the handler with the package variable does not
    redirect: it hands a nil error to the error manager; the handler that
    owns its engine redirects to the path of the public URL and then calls
    the engine's error responder with a nil error, two answers to one
    request.  For a request without a session the latter starts the
    authentication flow and then calls the error responder as well. *)
Theorem loginWithIdp_with_session
    (d : SamlGlobal.handlerDependencies) (ext : SamlGlobal.Externals)
    (h : SamlHandler.Handler) (m : samlsp.Middleware)
    (r r' : Request) (sess : Session) (e : error) :
  SamlGlobal.SessionManager_FetchFromRequest d r = inl sess →
  SamlHandler.samlMiddleware h = Some m →
  SamlHandler.SessionManager_FetchFromRequest (SamlHandler.d h) r = inl sess →
  SamlHandler.SessionManager_FetchFromRequest (SamlHandler.d h) r' = inr e →
  is_no_active_session e = true →
  SamlGlobal.loginWithIdp d ext (Some m) r
  = ([ErrorManagerForward None], Returned (Some m))
  ∧ SamlHandler.loginWithIdp h r
    = ([Redirect (url_Path (SamlHandler.SelfPublicURL (SamlHandler.d h))) 307;
        OnError None],
       Returned ())
  ∧ responses (trace (SamlHandler.loginWithIdp h r)) = 2
  ∧ SamlHandler.loginWithIdp h r'
    = ([HandleStartAuthFlow; OnError (Some e)], Returned ())
  ∧ responses (trace (SamlHandler.loginWithIdp h r')) = 2.
Proof.
  intros Hs Hm Hs' Hn He.
  rewrite global_loginWithIdp_cases, Hs.
  rewrite !(handler_loginWithIdp_cases h m) by done.
  rewrite Hs', Hn, He. done.
Qed.

Lemma loginWithIdp_with_session_witness :
  SamlGlobal.loginWithIdp Example.globalDeps Example.globalExt
    (Some Example.middleware) Example.signedIn
  = ([ErrorManagerForward None], Returned (Some Example.middleware))
  ∧ SamlHandler.loginWithIdp (Example.handlerWith Example.middleware) Example.signedIn
    = ([Redirect "/" 307; OnError None], Returned ())
  ∧ responses (trace (SamlHandler.loginWithIdp
                        (Example.handlerWith Example.middleware) Example.signedIn)) = 2
  ∧ SamlHandler.loginWithIdp (Example.handlerWith Example.middleware) Example.anonymous
    = ([HandleStartAuthFlow; OnError (Some ErrNoActiveSessionFound)], Returned ())
  ∧ responses (trace (SamlHandler.loginWithIdp
                        (Example.handlerWith Example.middleware) Example.anonymous)) = 2.
Proof.
  exact (loginWithIdp_with_session Example.globalDeps Example.globalExt
           (Example.handlerWith Example.middleware) Example.middleware
           Example.signedIn Example.anonymous
           {| session_identity := 9%N |} ErrNoActiveSessionFound
           eq_refl eq_refl eq_refl eq_refl eq_refl).
Defined.

(** ** First use of the engine by racing requests *)

(** [step_with tac] evaluates the innermost step of a run whose state is
    written out; [tac] feeds in what is known of the collaborators. *)
Ltac reduce_step :=
  cbn [Concurrent.goroutines Concurrent.samlMiddleware Concurrent.allocated
       Concurrent.at_ Concurrent.request Concurrent.calls Concurrent.used
       lookup list_lookup insert list_insert fmap option_fmap option_map
       snd fst app existsb is_start_auth orb
       errors_As_ErrNoActiveSessionFound].

Ltac step_with tac :=
  lazymatch goal with
  | |- context [Concurrent.step ?d ?e (Concurrent.Build_system ?g ?n ?gs) ?i] =>
      let E := fresh "E" in
      eassert (Concurrent.step d e (Concurrent.Build_system g n gs) i = _) as E;
      [ unfold Concurrent.step, Concurrent.move, SamlGlobal.dispatch;
        reduce_step; tac; reflexivity
      | rewrite E; clear E ]
  end.

Section Race.

Import SamlGlobal Concurrent.

Context (d : handlerDependencies) (ext : Externals).

Lemma idpMetadataOf_no_construction c t o :
  idpMetadataOf ext c = (t, o) →
  filter (λ c, is_construction c = true) t = [].
Proof.
  unfold idpMetadataOf. handler_cases; by intros [= <- <-].
Qed.

(** A build that yields an engine has called [samlsp.New] once. *)
Lemma buildMiddleware_constructs_once r t m err :
  buildMiddleware d ext r = (t, Returned (Some m, err)) →
  length (filter (λ c, is_construction c = true) t) = 1.
Proof.
  unfold buildMiddleware. handler_cases; intros [= <-].
  all: rewrite filter_app;
    erewrite idpMetadataOf_no_construction by eassumption; done.
Qed.

Lemma overlapping_run r1 r2 t1 t2 m1 m2 e1 e2 n1 n2 :
  buildMiddleware d ext r1 = (t1, Returned (Some m1, e1)) →
  buildMiddleware d ext r2 = (t2, Returned (Some m2, e2)) →
  SessionManager_FetchFromRequest d r1 = inr n1 →
  is_no_active_session n1 = true →
  SessionManager_FetchFromRequest d r2 = inr n2 →
  is_no_active_session n2 = true →
  run d ext overlapping (start [r1; r2])
  = {| samlMiddleware := Some (1, m2);
       allocated := 2;
       goroutines :=
         [ {| request := r1; at_ := Finished;
              calls := t1 ++ [HandleStartAuthFlow]; used := Some 0 |};
           {| request := r2; at_ := Finished;
              calls := t2 ++ [HandleStartAuthFlow]; used := Some 1 |} ] |}.
Proof.
  intros Hb1 Hb2 Hs1 Hn1 Hs2 Hn2.
  unfold run, overlapping, start. cbn [foldl fmap list_fmap]. unfold spawn.
  step_with idtac.
  step_with idtac.
  step_with ltac:(rewrite Hb1; reduce_step).
  step_with idtac.
  step_with ltac:(rewrite Hs1; reduce_step; rewrite Hn1; handler_simpl).
  step_with ltac:(rewrite Hb2; reduce_step).
  step_with idtac.
  step_with ltac:(rewrite Hs2; reduce_step; rewrite Hn2; handler_simpl).
  reflexivity.
Qed.

End Race.

(** C2, where the code departs from it. Two requests without a session
    whose engine construction succeeds, scheduled so that both test
    [samlMiddleware] before either assigns it: both run to their end, the
    engine is constructed twice, and the two requests are served by two
    different engine pointers. *)
Theorem racing_requests_build_twice
    (d : SamlGlobal.handlerDependencies) (ext : SamlGlobal.Externals)
    (r1 r2 : Request) (t1 t2 : list Call) (m1 m2 : samlsp.Middleware)
    (e1 e2 : option error) (n1 n2 : error) :
  SamlGlobal.buildMiddleware d ext r1 = (t1, Returned (Some m1, e1)) →
  SamlGlobal.buildMiddleware d ext r2 = (t2, Returned (Some m2, e2)) →
  SamlGlobal.SessionManager_FetchFromRequest d r1 = inr n1 →
  is_no_active_session n1 = true →
  SamlGlobal.SessionManager_FetchFromRequest d r2 = inr n2 →
  is_no_active_session n2 = true →
  let σ := Concurrent.run d ext Concurrent.overlapping (Concurrent.start [r1; r2]) in
  Concurrent.all_finished σ = true
  ∧ Concurrent.constructions σ = 2
  ∧ Concurrent.allocated σ = 2
  ∧ Concurrent.used <$> Concurrent.goroutines σ = [Some 0; Some 1].
Proof.
  intros Hb1 Hb2 Hs1 Hn1 Hs2 Hn2 σ. subst σ.
  rewrite (overlapping_run d ext r1 r2 t1 t2 m1 m2 e1 e2 n1 n2) by done.
  split; [done|]. split; [|done].
  unfold Concurrent.constructions. simpl.
  rewrite app_nil_r, !filter_app, !length_app.
  rewrite (buildMiddleware_constructs_once d ext r1 t1 m1 e1 Hb1).
  rewrite (buildMiddleware_constructs_once d ext r2 t2 m2 e2 Hb2).
  done.
Qed.

Lemma racing_requests_build_twice_witness :
  let σ := Concurrent.run Example.globalDeps Example.globalExt
             Concurrent.overlapping
             (Concurrent.start [Example.anonymous; Example.anonymous]) in
  Concurrent.all_finished σ = true
  ∧ Concurrent.constructions σ = 2
  ∧ Concurrent.allocated σ = 2
  ∧ Concurrent.used <$> Concurrent.goroutines σ = [Some 0; Some 1].
Proof.
  refine (racing_requests_build_twice Example.globalDeps Example.globalExt
            Example.anonymous Example.anonymous
            [FetchMetadata "https://idp.example/metadata"; SamlspNew]
            [FetchMetadata "https://idp.example/metadata"; SamlspNew]
            _ _ None None ErrNoActiveSessionFound ErrNoActiveSessionFound
            _ _ eq_refl eq_refl eq_refl eq_refl);
    vm_compute; reflexivity.
Defined.

(** Without overlap the same two requests share one engine. *)
Example requests_in_turn_share_engine :
  let σ := Concurrent.run Example.globalDeps Example.globalExt
             Concurrent.oneAfterTheOther
             (Concurrent.start [Example.anonymous; Example.anonymous]) in
  Concurrent.all_finished σ = true
  ∧ Concurrent.constructions σ = 1
  ∧ Concurrent.used <$> Concurrent.goroutines σ = [Some 0; Some 0].
Proof. vm_compute. done. Qed.

(** ** The error handler on registration flows *)

Section Responder.

Import Strategy ui.

Lemma UpdateNodeValues_nodes leaves prefix c :
  Nodes (UpdateNodeValues leaves prefix c)
  = (λ n, foldl (update_node prefix) n leaves) <$> Nodes c.
Proof.
  unfold UpdateNodeValues. simpl. generalize (Nodes c) as ns.
  induction leaves as [|kv leaves IH]; intros ns; simpl.
  - by rewrite list_fmap_id.
  - by rewrite IH, <- list_fmap_compose.
Qed.

(** Staged traits never reach a node whose name does not start with the
    prefix: the CSRF node and the provider node keep their values. *)
Lemma update_node_csrf leaves token :
  foldl (update_node "traits") (NewCSRFNode token) leaves = NewCSRFNode token.
Proof.
  induction leaves as [|kv leaves IH]; [done|].
  cbn [foldl]. replace (update_node "traits" (NewCSRFNode token) kv)
    with (NewCSRFNode token); [done|].
  unfold update_node. case_decide as Hname; [|done].
  simpl in Hname. discriminate Hname.
Qed.

Lemma update_node_provider leaves provider message :
  foldl (update_node "traits") (NewProviderNode provider message) leaves
  = NewProviderNode provider message.
Proof.
  induction leaves as [|kv leaves IH]; [done|].
  cbn [foldl]. replace (update_node "traits" (NewProviderNode provider message) kv)
    with (NewProviderNode provider message); [done|].
  unfold update_node. case_decide as Hname; [|done].
  simpl in Hname. discriminate Hname.
Qed.

Lemma UpdateNodeValues_keeps_head leaves token provider message ns :
  Nodes (UpdateNodeValues leaves "traits"
           {| Nodes := NewCSRFNode token :: NewProviderNode provider message :: ns |})
  = NewCSRFNode token :: NewProviderNode provider message
      :: Nodes (UpdateNodeValues leaves "traits" {| Nodes := ns |}).
Proof.
  rewrite !UpdateNodeValues_nodes. simpl.
  by rewrite update_node_csrf, update_node_provider.
Qed.

End Responder.

(** C6, as stated, fails: the generator of the example yields the token
    the flow already carries, so the token after [handleError] equals the
    token before. *)
Lemma handleError_token_may_repeat :
  ¬ renders_with_new_token Example.d Example.ext Example.request
      Example.staleRegistration "corp-idp" None (Some Example.duplicate).
Proof.
  intros (rf' & e' & Hrun & Htoken & _).
  vm_compute in Hrun. injection Hrun as <- <-.
  apply Htoken. reflexivity.
Qed.

(** C6, amended. For every registration flow, [handleError] returns and
    leaves a UI whose nodes do not depend on the nodes it had: first the
    CSRF node with the token the generator yields for the request, then
    one provider node labelled "continue".  With staged traits, when the
    schema yields trait nodes they follow, pre-populated from the staged
    data, and the error passed in is returned; when the schema fails that
    error is returned instead and no trait node is added.  Without staged
    traits the two nodes stand alone. *)
Theorem handleError_registration
    (d : Strategy.registrationStrategyDependencies) (ext : Strategy.Externals)
    (r : Request) (rf : registration.Flow) (provider : string)
    (traits : option (list Byte.byte)) (err : option error) :
  let csrf := ui.NewCSRFNode (Strategy.GenerateCSRFToken d r) in
  let continue := ui.NewProviderNode provider ui.InfoRegistrationContinue in
  ∃ nodes e',
    Strategy.handleError d ext r (RegistrationFlow (Some rf)) provider traits err
    = ([], Returned (RegistrationFlow
                       (Some (Strategy.with_UI rf {| ui.Nodes := nodes |})), e'))
    ∧ ui.csrf_token {| ui.Nodes := nodes |} = Some (Strategy.GenerateCSRFToken d r)
    ∧ match traits with
      | None => nodes = [csrf; continue] ∧ e' = err
      | Some t =>
          match Strategy.NodesFromJSONSchema ext OpenIDConnectGroup
                  (Strategy.DefaultIdentityTraitsSchemaURL d) with
          | inl traitNodes =>
              nodes = csrf :: continue
                        :: ui.Nodes (ui.UpdateNodeValues (Strategy.Flatten ext t)
                                       "traits" {| ui.Nodes := traitNodes |})
              ∧ e' = err
          | inr e => nodes = [csrf; continue] ∧ e' = Some e
          end
      end.
Proof.
  intros csrf continue. unfold Strategy.handleError. handler_simpl.
  destruct traits as [t|]; [|by eexists _, _].
  destruct (Strategy.NodesFromJSONSchema ext OpenIDConnectGroup
              (Strategy.DefaultIdentityTraitsSchemaURL d)) as [tn|e];
    [|by eexists _, _].
  eexists _, _. split; [reflexivity|].
  pose proof (UpdateNodeValues_keeps_head (Strategy.Flatten ext t)
                (Strategy.GenerateCSRFToken d r) provider
                ui.InfoRegistrationContinue tn) as Hkeep.
  unfold ui.UpdateNodeValues in Hkeep. simpl in Hkeep. simpl.
  rewrite Hkeep. done.
Qed.

(** The example flow with staged traits: the password node is gone, one
    provider node stands after the CSRF node, and the trait node of the
    schema carries the staged address.  Login and settings flows pass
    through untouched. *)
Example handleError_examples :
  Strategy.handleError Example.d Example.ext Example.request
    (RegistrationFlow (Some Example.staleRegistration)) "corp-idp" (Some [])
    (Some Example.duplicate)
  = ([], Returned
           (RegistrationFlow
              (Some (Strategy.with_UI Example.staleRegistration
                       {| ui.Nodes :=
                            [ui.NewCSRFNode "nosurf";
                             ui.NewProviderNode "corp-idp" ui.InfoRegistrationContinue;
                             ui.set_value "alice@example.com" Example.traitNode] |})),
            Some Example.duplicate))
  ∧ Strategy.handleError Example.d Example.ext Example.request
      (LoginFlow None) "corp-idp" (Some []) (Some Example.duplicate)
    = ([], Returned (LoginFlow None, Some Example.duplicate))
  ∧ Strategy.handleError Example.d Example.ext Example.request
      (RegistrationFlow None) "corp-idp" None (Some Example.duplicate)
    = ([], Panicked NilDereference).
Proof. vm_compute. done. Qed.

(** * Part III: further properties of the sources *)

(** ** Credential identifiers *)

(** X1. [uid] keeps provider and subject apart as long as provider ids
    carry no colon: two identifiers are equal only when both parts are. *)
Theorem uid_injective (provider provider' subject subject' : string) :
  StrategyRest.colon_free provider = true →
  StrategyRest.colon_free provider' = true →
  StrategyRest.uid provider subject = StrategyRest.uid provider' subject' →
  provider = provider' ∧ subject = subject'.
Proof.
  unfold StrategyRest.uid.
  revert provider'. induction provider as [|c p IH]; intros [|c' p'];
    simpl; intros Hp Hp' Heq.
  - by simplify_eq/=.
  - simplify_eq/=; by rewrite decide_True in Hp'.
  - simplify_eq/=; by rewrite decide_True in Hp.
  - injection Heq as -> Heq.
    destruct (decide (c' = ":"%char)); [done|].
    by destruct (IH p' Hp Hp' Heq) as [-> ->].
Qed.

Lemma uid_injective_witness :
  "corp-idp" = "corp-idp" ∧ "alice" = "alice".
Proof.
  exact (uid_injective "corp-idp" "corp-idp" "alice" "alice"
           eq_refl eq_refl eq_refl).
Defined.

(** A provider id with a colon in it does collide. *)
Example uid_collision :
  StrategyRest.uid "a:b" "c" = StrategyRest.uid "a" "b:c".
Proof. reflexivity. Qed.

(** ** More on flow validation *)

(** X2. [validateFlow] hands back a flow without error only for a non-zero
    id whose first holder in probe order keeps a browser flow; that flow's
    own validity check has then been consulted exactly once, and the
    session has been looked up exactly when the flow is a settings flow. *)
Theorem validateFlow_success
    (d : Strategy.registrationStrategyDependencies) (ext : Strategy.Externals)
    (r : Request) (rid : UUID) (f : Flow) :
  result (Strategy.validateFlow d ext r rid) = Returned (f, None) →
  IsZeroUUID rid = false
  ∧ resolve probeOrder d rid = Some f
  ∧ flowType f = Some TypeBrowser
  ∧ validity_checks (trace (Strategy.validateFlow d ext r rid)) = 1
  ∧ session_lookups (trace (Strategy.validateFlow d ext r rid))
    = match f with SettingsFlow _ => 1 | _ => 0 end.
Proof.
  unfold Strategy.validateFlow, resolve, probeOrder, lookupStore.
  handler_cases; intros [= <-]; repeat split; try done;
    match goal with
    | H : bool_decide (?t ≠ TypeBrowser) = false |- _ =>
        apply bool_decide_eq_false in H; destruct t; [done|];
        exfalso; by apply H
    end.
Qed.

Lemma validateFlow_success_witness :
  IsZeroUUID 1%N = false
  ∧ resolve probeOrder Example.d 1%N
    = Some (RegistrationFlow
              (Some {| registration.ID := 1%N; registration.Type_ := TypeBrowser;
                       registration.UI := Example.emptyUI;
                       registration.CSRFToken := "nosurf" |}))
  ∧ flowType (RegistrationFlow
                (Some {| registration.ID := 1%N; registration.Type_ := TypeBrowser;
                         registration.UI := Example.emptyUI;
                         registration.CSRFToken := "nosurf" |}))
    = Some TypeBrowser
  ∧ validity_checks
      (trace (Strategy.validateFlow Example.d Example.ext Example.request 1%N)) = 1
  ∧ session_lookups
      (trace (Strategy.validateFlow Example.d Example.ext Example.request 1%N)) = 0.
Proof.
  exact (validateFlow_success Example.d Example.ext Example.request 1%N _ eq_refl).
Defined.

(** X3. Whatever the id, [validateFlow] asks at most three stores, looks
    the session up at most once and consults at most one validity check;
    for the zero id it asks nobody and answers with a bad-request error and
    no flow. *)
Theorem validateFlow_bounds
    (d : Strategy.registrationStrategyDependencies) (ext : Strategy.Externals)
    (r : Request) (rid : UUID) :
  (length (probes (trace (Strategy.validateFlow d ext r rid))) ≤ 3)%nat
  ∧ (session_lookups (trace (Strategy.validateFlow d ext r rid)) ≤ 1)%nat
  ∧ (validity_checks (trace (Strategy.validateFlow d ext r rid)) ≤ 1)%nat
  ∧ if IsZeroUUID rid then
      trace (Strategy.validateFlow d ext r rid) = []
      ∧ ∃ reason,
          result (Strategy.validateFlow d ext r rid)
          = Returned (NilFlow, Some (ErrBadRequest reason))
    else
      probes (trace (Strategy.validateFlow d ext r rid)) ≠ [].
Proof.
  unfold Strategy.validateFlow, probes, session_lookups, validity_checks.
  handler_cases; repeat split; simpl; eauto; lia.
Qed.

(** ** The callback validation *)

Section Callback.

Import Strategy StrategyRest.

Context (d : registrationStrategyDependencies) (ext : Externals)
        (cd : callbackDependencies).

Lemma validateCallback_cases r :
  validateCallback d ext cd r
  = match ContinuityManager_Continue cd r (sessionName cd) with
    | inr err => ([], Returned (NilFlow, None, Some err))
    | inl cntnr =>
        match validateFlow d ext r (ParseUUID cd (FlowID cntnr)) with
        | (t, Returned (f, Some e)) => (t, Returned (NilFlow, Some cntnr, Some e))
        | (t, Returned (f, None)) =>
            if bool_decide (Query_Get (Query r) "error" ≠ "") then
              (t, Returned (f, Some cntnr,
                            Some (ErrBadRequest
                                    (providerErrorReason
                                       (Query_Get (Query r) "error")
                                       (Query_Get (Query r) "error_description")))))
            else (t, Returned (f, Some cntnr, None))
        | (t, Panicked p) => (t, Panicked p)
        end
    end.
Proof.
  unfold validateCallback.
  destruct (ContinuityManager_Continue cd r (sessionName cd)) as [cntnr|e];
    [|done].
  destruct (validateFlow d ext r (ParseUUID cd (FlowID cntnr)))
    as [t [[f [e|]]|p]]; handler_simpl; try by rewrite app_nil_r.
  - by destruct (bool_decide (Query_Get (Query r) "error" ≠ ""));
      rewrite app_nil_r.
  - done.
Qed.

End Callback.

(** X4. [validateCallback] returns without error only when the continuity
    payload was recovered, the flow it names passed [validateFlow], and the
    request carries no error parameter from the IDP; the flow returned is
    the validated one and the payload comes with it. *)
Theorem validateCallback_success
    (d : Strategy.registrationStrategyDependencies) (ext : Strategy.Externals)
    (cd : StrategyRest.callbackDependencies) (r : Request)
    (f : Flow) (c : option StrategyRest.authCodeContainer) :
  result (StrategyRest.validateCallback d ext cd r) = Returned (f, c, None) →
  ∃ cntnr,
    StrategyRest.ContinuityManager_Continue cd r (StrategyRest.sessionName cd)
    = inl cntnr
    ∧ c = Some cntnr
    ∧ Query_Get (Query r) "error" = ""
    ∧ result (Strategy.validateFlow d ext r
                (StrategyRest.ParseUUID cd (StrategyRest.FlowID cntnr)))
      = Returned (f, None).
Proof.
  rewrite validateCallback_cases.
  destruct (StrategyRest.ContinuityManager_Continue cd r _) as [cntnr|e];
    [|done].
  destruct (Strategy.validateFlow d ext r _) as [t [[f' [e|]]|p]] eqn:Hv;
    try done.
  case_bool_decide as Hq; [done|]. intros [= <- <-].
  exists cntnr. repeat split; try done. by rewrite Hv.
Qed.

Lemma validateCallback_success_witness :
  ∃ cntnr,
    StrategyRest.ContinuityManager_Continue Example2.callbackDeps Example.request
      (StrategyRest.sessionName Example2.callbackDeps) = inl cntnr
    ∧ Some {| StrategyRest.FlowID := "00000000-0000-0000-0000-000000000001";
              StrategyRest.State := "state-1"; StrategyRest.Traits := [] |}
      = Some cntnr
    ∧ Query_Get (Query Example.request) "error" = ""
    ∧ result (Strategy.validateFlow Example.d Example.ext Example.request
                (StrategyRest.ParseUUID Example2.callbackDeps
                   (StrategyRest.FlowID cntnr)))
      = Returned (RegistrationFlow
                    (Some {| registration.ID := 1%N;
                             registration.Type_ := TypeBrowser;
                             registration.UI := Example.emptyUI;
                             registration.CSRFToken := "nosurf" |}), None).
Proof.
  exact (validateCallback_success Example.d Example.ext Example2.callbackDeps
           Example.request _ _ eq_refl).
Defined.

(** X5. When [validateCallback] returns an error, a flow comes with it in
    one case only: the flow validated and the IDP sent an error parameter,
    which the bad-request reason quotes with its description.  A failure of
    the continuity manager or of [validateFlow] returns the nil flow, the
    flow [validateFlow] had found included. *)
Theorem validateCallback_failure
    (d : Strategy.registrationStrategyDependencies) (ext : Strategy.Externals)
    (cd : StrategyRest.callbackDependencies) (r : Request)
    (f : Flow) (c : option StrategyRest.authCodeContainer) (e : error) :
  result (StrategyRest.validateCallback d ext cd r) = Returned (f, c, Some e) →
  (f = NilFlow
   ∧ (StrategyRest.ContinuityManager_Continue cd r (StrategyRest.sessionName cd)
      = inr e ∧ c = None
      ∨ ∃ cntnr f',
          c = Some cntnr
          ∧ result (Strategy.validateFlow d ext r
                      (StrategyRest.ParseUUID cd (StrategyRest.FlowID cntnr)))
            = Returned (f', Some e)))
  ∨ (∃ cntnr,
       c = Some cntnr
       ∧ result (Strategy.validateFlow d ext r
                   (StrategyRest.ParseUUID cd (StrategyRest.FlowID cntnr)))
         = Returned (f, None)
       ∧ Query_Get (Query r) "error" ≠ ""
       ∧ e = ErrBadRequest
               (StrategyRest.providerErrorReason
                  (Query_Get (Query r) "error")
                  (Query_Get (Query r) "error_description"))).
Proof.
  rewrite validateCallback_cases.
  destruct (StrategyRest.ContinuityManager_Continue cd r _) as [cntnr|e'].
  - destruct (Strategy.validateFlow d ext r _) as [t [[f' [e'|]]|p]] eqn:Hv;
      try done.
    + intros [= <- <- <-]. left. split; [done|]. right. exists cntnr, f'.
      by rewrite Hv.
    + case_bool_decide as Hq; [|done]. intros [= <- <- <-].
      right. exists cntnr. by rewrite Hv.
  - intros [= <- <- <-]. left. split; [done|]. by left.
Qed.

Lemma validateCallback_failure_witness :
  (RegistrationFlow (Some {| registration.ID := 1%N;
                             registration.Type_ := TypeBrowser;
                             registration.UI := Example.emptyUI;
                             registration.CSRFToken := "nosurf" |}) = NilFlow
   ∧ (StrategyRest.ContinuityManager_Continue Example2.callbackDeps
        Example2.cancelled (StrategyRest.sessionName Example2.callbackDeps)
      = inr (ErrBadRequest
               (StrategyRest.providerErrorReason "access_denied" "user cancelled"))
      ∧ Some {| StrategyRest.FlowID := "00000000-0000-0000-0000-000000000001";
                StrategyRest.State := "state-1"; StrategyRest.Traits := [] |}
        = None
      ∨ ∃ cntnr f',
          Some {| StrategyRest.FlowID := "00000000-0000-0000-0000-000000000001";
                  StrategyRest.State := "state-1"; StrategyRest.Traits := [] |}
          = Some cntnr
          ∧ result (Strategy.validateFlow Example.d Example.ext Example2.cancelled
                      (StrategyRest.ParseUUID Example2.callbackDeps
                         (StrategyRest.FlowID cntnr)))
            = Returned (f', Some (ErrBadRequest
                                    (StrategyRest.providerErrorReason
                                       "access_denied" "user cancelled")))))
  ∨ (∃ cntnr,
       Some {| StrategyRest.FlowID := "00000000-0000-0000-0000-000000000001";
               StrategyRest.State := "state-1"; StrategyRest.Traits := [] |}
       = Some cntnr
       ∧ result (Strategy.validateFlow Example.d Example.ext Example2.cancelled
                   (StrategyRest.ParseUUID Example2.callbackDeps
                      (StrategyRest.FlowID cntnr)))
         = Returned (RegistrationFlow
                       (Some {| registration.ID := 1%N;
                                registration.Type_ := TypeBrowser;
                                registration.UI := Example.emptyUI;
                                registration.CSRFToken := "nosurf" |}), None)
       ∧ Query_Get (Query Example2.cancelled) "error" ≠ ""
       ∧ ErrBadRequest
           (StrategyRest.providerErrorReason "access_denied" "user cancelled")
         = ErrBadRequest
             (StrategyRest.providerErrorReason
                (Query_Get (Query Example2.cancelled) "error")
                (Query_Get (Query Example2.cancelled) "error_description"))).
Proof.
  exact (validateCallback_failure Example.d Example.ext Example2.callbackDeps
           Example2.cancelled _ _ _ eq_refl).
Defined.

(** ** Method population *)

Section Populate.

Import ui.

Lemma Upsert_csrf_token ns token :
  csrf_token {| Nodes := Upsert ns (NewCSRFNode token) |} = Some token.
Proof.
  unfold csrf_token. simpl.
  induction ns as [|n ns IH]; [done|]. simpl.
  destruct (decide (node_name n = "csrf_token")) as [Hn|Hn].
  - by rewrite filter_cons_True.
  - by rewrite filter_cons_False.
Qed.

Lemma Upsert_keeps_others ns token :
  filter (λ n, node_name n ≠ "csrf_token") (Upsert ns (NewCSRFNode token))
  = filter (λ n, node_name n ≠ "csrf_token") ns.
Proof.
  induction ns as [|n ns IH]; [done|]. simpl.
  destruct (decide (node_name n = "csrf_token")) as [Hn|Hn].
  - rewrite !filter_cons_False; [done| |]; simpl; by intros Hne; apply Hne.
  - by rewrite !filter_cons_True, IH.
Qed.

End Populate.

(** X6. [populateMethod] fails exactly when the strategy configuration
    does not decode, with an internal-server error, and then leaves the
    container as it was; otherwise it returns no error, the container
    carries the CSRF token generated for the request, and every node other
    than the CSRF node is kept, in order. *)
Theorem populateMethod_outcome
    (d : Strategy.registrationStrategyDependencies) (ext : Strategy.Externals)
    (r : Request) (c : ui.Container) :
  match Strategy.StrictDecode ext (Strategy.SelfServiceStrategyConfig d) with
  | inr e =>
      ∃ reason,
        StrategyRest.populateMethod d ext r c
        = (c, Some (ErrInternalServerError reason))
  | inl _ =>
      (StrategyRest.populateMethod d ext r c).2 = None
      ∧ ui.csrf_token (StrategyRest.populateMethod d ext r c).1
        = Some (Strategy.GenerateCSRFToken d r)
      ∧ filter (λ n, ui.node_name n ≠ "csrf_token")
          (ui.Nodes (StrategyRest.populateMethod d ext r c).1)
        = filter (λ n, ui.node_name n ≠ "csrf_token") (ui.Nodes c)
  end.
Proof.
  unfold StrategyRest.populateMethod, Strategy.Config.
  destruct (Strategy.StrictDecode ext _) as [cfg|e]; simpl; [|by eexists].
  split; [done|]. split.
  - apply Upsert_csrf_token.
  - apply Upsert_keeps_others.
Qed.

(** ** Provider resolution *)

(** X7. [Strategy.provider] calls no collaborator that answers the
    request.  When it returns, exactly one of provider and error is set;
    it panics only on a configuration that decodes to an empty provider
    list. *)
Theorem provider_outcome
    (d : Strategy.registrationStrategyDependencies) (ext : Strategy.Externals)
    (r : Request) :
  trace (Strategy.provider d ext r) = []
  ∧ match result (Strategy.provider d ext r) with
    | Returned (Some _, None) | Returned (None, Some _) => True
    | Returned _ => False
    | Panicked p =>
        p = IndexOutOfRange 0 0
        ∧ ∃ c, Strategy.StrictDecode ext (Strategy.SelfServiceStrategyConfig d)
               = inl c
               ∧ samlstrategy.SAMLProviders c = []
    end.
Proof.
  unfold Strategy.provider, Strategy.Config.
  destruct (Strategy.StrictDecode ext _) as [c|e] eqn:Hc; [|done].
  handler_simpl. unfold index. simpl.
  destruct (samlstrategy.SAMLProviders c) as [|p0 ps] eqn:Hps; simpl.
  - split; [done|]. split; [done|]. by exists c.
  - handler_cases.
Qed.

(** ** More on the callback handler *)

Lemma provider_no_calls
    (d : Strategy.registrationStrategyDependencies) (ext : Strategy.Externals)
    (r : Request) :
  (Strategy.provider d ext r).1 = [].
Proof.
  unfold Strategy.provider, Strategy.Config. handler_cases.
Qed.

Lemma forwards_app (t t' : list Call) :
  forwards (t ++ t') = forwards t + forwards t'.
Proof. unfold forwards. by rewrite filter_app, length_app. Qed.

(** X8. Whatever the request and the collaborators do, [handleCallback]
    itself calls the flow-typed error responder at most once: if
    [processLoginOrRegister] forwards nothing, the whole run holds at most
    one forward. *)
Theorem handleCallback_forwards_at_most_once
    (d : Strategy.registrationStrategyDependencies) (ext : Strategy.Externals)
    (r : Request) :
  (∀ p c, forwards (trace (Strategy.processLoginOrRegister ext r p c)) = 0) →
  (forwards (trace (Strategy.handleCallback d ext r)) ≤ 1)%nat.
Proof.
  intros Hproc. pose proof (provider_no_calls d ext r) as Hprov.
  unfold Strategy.handleCallback, Strategy.getAttributesFromAssertion,
    Strategy.forwardError.
  handler_cases.
  all: try match goal with
           | H : Strategy.processLoginOrRegister _ _ ?p ?c = (?l, _) |- _ =>
               specialize (Hproc p c); rewrite H in Hproc;
               unfold trace in Hproc; simpl in Hproc
           end.
  all: rewrite ?app_nil_r;
    repeat match goal with
           | |- context [forwards (?x :: ?l)] =>
               lazymatch l with
               | [] => fail
               | _ => change (x :: l) with ([x] ++ l)
               end
           end;
    rewrite ?forwards_app; try rewrite Hproc; try (cbv [forwards]; simpl; lia).
  unfold panics in *. simplify_eq. cbv [forwards]. simpl. lia.
Qed.

Lemma handleCallback_forwards_at_most_once_witness :
  (forwards (trace (Strategy.handleCallback Example.d Example.ext Example.request))
   ≤ 1)%nat.
Proof.
  apply (handleCallback_forwards_at_most_once Example.d Example.ext Example.request).
  intros p c. reflexivity.
Defined.

(** X9. When the engine rejects the response, [handleCallback] answers
    twice: [getAttributesFromAssertion] has called the engine's error
    responder, and the handler then forwards the same error to the login
    error handler without a flow; nothing else is called and the handler
    returns. *)
Theorem handleCallback_parse_failure
    (d : Strategy.registrationStrategyDependencies) (ext : Strategy.Externals)
    (r : Request) (m : samlsp.Middleware) (a : option samlsp.Assertion)
    (e : error) :
  Strategy.GetMiddleware ext = Some m →
  samlsp.ParseResponse m r (Strategy.possibleRequestIDs m r) = (a, Some e) →
  Strategy.handleCallback d ext r
  = ([ParseResponseOf (Strategy.possibleRequestIDs m r);
      OnError (Some e);
      WriteLoginFlowError None SAMLGroup (Some e)],
     Returned ())
  ∧ responses (trace (Strategy.handleCallback d ext r)) = 2.
Proof.
  intros Hm Hparse.
  unfold Strategy.handleCallback, Strategy.getAttributesFromAssertion.
  rewrite Hm. handler_simpl. rewrite Hparse. by handler_simpl.
Qed.

Lemma handleCallback_parse_failure_witness :
  Strategy.handleCallback Example.d
    (Example2.extWithEngine (Some Example.rejecting)) Example.request
  = ([ParseResponseOf ["id-7"];
      OnError (Some (ErrOther "cannot validate signature"));
      WriteLoginFlowError None SAMLGroup (Some (ErrOther "cannot validate signature"))],
     Returned ())
  ∧ responses
      (trace (Strategy.handleCallback Example.d
                (Example2.extWithEngine (Some Example.rejecting))
                Example.request)) = 2.
Proof.
  exact (handleCallback_parse_failure Example.d
           (Example2.extWithEngine (Some Example.rejecting)) Example.request
           Example.rejecting None (ErrOther "cannot validate signature")
           eq_refl eq_refl).
Defined.

(** ** More on attribute extraction *)

(** X10. The request ids handed to [ParseResponse] are the ids of the
    tracked requests in their order, preceded by the empty id exactly when
    IDP-initiated responses are allowed: with the flag set the list is the
    empty id followed by the tracked ids, without it the tracked ids alone.
    So the empty id is accepted only with the flag or when a tracked
    request itself has the empty id. *)
Theorem possibleRequestIDs_accepts (m : samlsp.Middleware) (r : Request) :
  Strategy.possibleRequestIDs m r
  = (if samlsp.AllowIDPInitiated m
     then "" :: (samlsp.SAMLRequestID <$> samlsp.GetTrackedRequests m r)
     else samlsp.SAMLRequestID <$> samlsp.GetTrackedRequests m r)
  ∧ (∀ i tr, samlsp.GetTrackedRequests m r !! i = Some tr →
             Strategy.possibleRequestIDs m r
               !! ((if samlsp.AllowIDPInitiated m then 1 else 0) + i)
             = Some (samlsp.SAMLRequestID tr))
  ∧ (samlsp.AllowIDPInitiated m = true →
     Strategy.possibleRequestIDs m r !! 0 = Some "")
  ∧ (∀ tr, tr ∈ samlsp.GetTrackedRequests m r →
           samlsp.SAMLRequestID tr ∈ Strategy.possibleRequestIDs m r)
  ∧ ("" ∈ Strategy.possibleRequestIDs m r
     ↔ samlsp.AllowIDPInitiated m = true
       ∨ ∃ tr, tr ∈ samlsp.GetTrackedRequests m r ∧ samlsp.SAMLRequestID tr = "")
  ∧ (samlsp.AllowIDPInitiated m = false →
     Strategy.possibleRequestIDs m r
     = samlsp.SAMLRequestID <$> samlsp.GetTrackedRequests m r)
  ∧ length (Strategy.possibleRequestIDs m r)
    = (if samlsp.AllowIDPInitiated m then 1 else 0)
      + length (samlsp.GetTrackedRequests m r).
Proof.
  unfold Strategy.possibleRequestIDs.
  split; [by destruct (samlsp.AllowIDPInitiated m)|].
  split.
  { intros i tr Htr. destruct (samlsp.AllowIDPInitiated m); simpl;
      by rewrite list_lookup_fmap, Htr. }
  split; [by intros ->|].
  repeat split.
  - intros tr Htr. apply elem_of_app. right. by apply list_elem_of_fmap_2.
  - intros [Hin|Hin]%elem_of_app.
    + left. by destruct (samlsp.AllowIDPInitiated m); [|apply elem_of_nil in Hin].
    + right. apply list_elem_of_fmap in Hin as (tr & Heq & Htr). by exists tr.
  - intros [->|(tr & Htr & Heq)]; apply elem_of_app.
    + left. apply list_elem_of_here.
    + right. rewrite <- Heq. by apply list_elem_of_fmap_2.
  - by intros ->.
  - rewrite length_app, length_fmap. by destruct (samlsp.AllowIDPInitiated m).
Qed.

(** X11. Extraction works statement by statement: for an assertion whose
    statements are [sts1] followed by [sts2], every claim name holds the
    values extracted from [sts1] followed by those extracted from [sts2]. *)
Theorem collectAttributes_app
    (sts1 sts2 : list samlsp.AttributeStatement) (k : string) :
  valuesAt (Strategy.collectAttributes
              {| samlsp.AttributeStatements := sts1 ++ sts2 |}) k
  = valuesAt (Strategy.collectAttributes {| samlsp.AttributeStatements := sts1 |}) k
    ++ valuesAt (Strategy.collectAttributes {| samlsp.AttributeStatements := sts2 |}) k.
Proof.
  unfold Strategy.collectAttributes. simpl.
  rewrite foldl_app.
  rewrite (foldl_collectStatement_valuesAt _ sts2).
  rewrite (foldl_collectStatement_valuesAt ∅ sts2).
  by f_equal.
Qed.

(** X12. A claim name is a key of the extracted map exactly when some
    attribute of some statement carries at least one value and has that
    name as its friendly name, or, its friendly name being empty, as its
    raw name: attributes without values leave no key behind, and a raw name
    hidden by a friendly name is no key. *)
Theorem collectAttributes_keys (a : samlsp.Assertion) (k : string) :
  is_Some (Strategy.collectAttributes a !! k)
  ↔ ∃ st attr,
      st ∈ samlsp.AttributeStatements a
      ∧ attr ∈ samlsp.Attributes st
      ∧ (samlsp.FriendlyName attr ≠ "" ∧ samlsp.FriendlyName attr = k
         ∨ samlsp.FriendlyName attr = "" ∧ samlsp.Name attr = k)
      ∧ samlsp.Values attr ≠ [].
Proof.
  assert (∀ attr, namedBy k attr = true
                  ↔ (samlsp.FriendlyName attr ≠ "" ∧ samlsp.FriendlyName attr = k
                     ∨ samlsp.FriendlyName attr = "" ∧ samlsp.Name attr = k))
    as Hrule.
  { intros attr. unfold namedBy.
    destruct (samlsp.FriendlyName attr) as [|c fn];
      rewrite bool_decide_eq_true; split.
    - intros Hn. by right.
    - by intros [[Hne _]|[_ Hn]].
    - intros Hf. by left.
    - by intros [[_ Hf]|[Hnil _]]. }
  rewrite collectAttributes_lookup. unfold claimValues. split.
  - intros Hsome.
    destruct (samlsp.AttributeStatements a ≫= _) as [|v vs] eqn:Hvs;
      [by destruct Hsome|].
    assert (v ∈ v :: vs) as Hv by apply list_elem_of_here.
    rewrite <- Hvs in Hv.
    apply list_elem_of_bind in Hv as (st & Hv & Hst).
    apply list_elem_of_bind in Hv as (attr & Hv & Hattr).
    exists st, attr. destruct (namedBy k attr) eqn:Hnamed.
    + repeat split; try done; [by apply Hrule|].
      intros Hnil. rewrite Hnil in Hv. by apply elem_of_nil in Hv.
    + by apply elem_of_nil in Hv.
  - intros (st & attr & Hst & Hattr & Hname & Hvals).
    apply Hrule in Hname.
    destruct (samlsp.Values attr) as [|v vs] eqn:Hv; [done|].
    assert (samlsp.Value v ∈ samlsp.AttributeStatements a ≫= λ st,
              samlsp.Attributes st ≫= λ attr,
                if namedBy k attr
                then samlsp.Value <$> samlsp.Values attr else []) as Hin.
    { apply list_elem_of_bind. exists st. split; [|done].
      apply list_elem_of_bind. exists attr. split; [|done].
      rewrite Hname, Hv. apply list_elem_of_here. }
    destruct (samlsp.AttributeStatements a ≫= _); [by apply elem_of_nil in Hin|].
    by eexists.
Qed.

(** ** More on the handler with the package variable *)

Section GlobalRest.

Import SamlGlobal SamlGlobalRest.

Context (d : handlerDependencies) (ext : Externals).

Lemma idpMetadataOf_no_response c t o :
  idpMetadataOf ext c = (t, o) → responses t = 0.
Proof.
  unfold idpMetadataOf. handler_cases; by intros [= <- <-].
Qed.

(** Building the engine writes nothing to the response. *)
Lemma buildMiddleware_no_response r :
  responses (trace (buildMiddleware d ext r)) = 0.
Proof.
  unfold buildMiddleware. handler_cases.
  all: unfold responses; rewrite ?filter_app, ?length_app;
    match goal with
    | H : idpMetadataOf _ _ = _ |- _ =>
        apply idpMetadataOf_no_response in H; unfold responses in H;
        rewrite H
    end; done.
Qed.

Lemma length_slash s : String.length (s +:+ "/") - 1 = String.length s.
Proof.
  assert (String.length (s +:+ "/") = S (String.length s)) as ->; [|lia].
  induction s as [|c s IH]; [done|]. simpl. by rewrite IH.
Qed.

Lemma get_slash s : String.get (String.length s) (s +:+ "/") = Some "/"%char.
Proof. induction s as [|c s IH]; [done|]. simpl. by rewrite IH. Qed.

Lemma last_byte_slash s : last_byte (s +:+ "/") = Returned "/"%char.
Proof. unfold last_byte. by rewrite length_slash, get_slash. Qed.

Lemma drop_last_slash s : drop_last (s +:+ "/") = s.
Proof.
  unfold drop_last. rewrite length_slash.
  induction s as [|c s IH]; [done|]. simpl. by rewrite IH.
Qed.

End GlobalRest.

(** X15. The metadata endpoint does not report a failed engine
    construction: when the engine is missing and [instantiateMiddleware]
    returns an error, [submitMetadata] drops the error, goes on to the nil
    engine and panics, having written nothing to the response. *)
Theorem submitMetadata_drops_build_error
    (d : SamlGlobal.handlerDependencies) (ext : SamlGlobal.Externals)
    (r : Request) (t : list Call) (err : option error) :
  SamlGlobal.buildMiddleware d ext r = (t, Returned (None, err)) →
  SamlGlobalRest.submitMetadata d ext None r = (t, Panicked NilDereference)
  ∧ responses t = 0.
Proof.
  intros Hb. split.
  - unfold SamlGlobalRest.submitMetadata, SamlGlobal.instantiateMiddleware.
    rewrite Hb. handler_simpl. by rewrite !app_nil_r.
  - pose proof (buildMiddleware_no_response d ext r) as Hr.
    by rewrite Hb in Hr.
Qed.

Lemma submitMetadata_drops_build_error_witness :
  SamlGlobalRest.submitMetadata Example.globalDeps Example2.globalExtFailing
    None Example.request
  = ([], Panicked NilDereference)
  ∧ responses [] = 0.
Proof.
  exact (submitMetadata_drops_build_error Example.globalDeps
           Example2.globalExtFailing Example.request []
           (Some (ErrOther "open /etc/config/sp.crt: no such file or directory"))
           eq_refl).
Defined.

(** X16. When the engine is missing and its construction fails,
    [loginWithIdp] forwards the error to the error manager and carries on
    with the session check all the same: a request without a session then
    panics on the nil engine, any other request gets a second answer.  The
    package variable stays nil. *)
Theorem loginWithIdp_after_failed_build
    (d : SamlGlobal.handlerDependencies) (ext : SamlGlobal.Externals)
    (r : Request) (t : list Call) (e : error) :
  SamlGlobal.buildMiddleware d ext r = (t, Returned (None, Some e)) →
  SamlGlobal.loginWithIdp d ext None r
  = match SamlGlobal.SessionManager_FetchFromRequest d r with
    | inr se =>
        if is_no_active_session se then
          (t ++ [ErrorManagerForward (Some e)], Panicked NilDereference)
        else
          (t ++ [ErrorManagerForward (Some e);
                 Redirect (url_Path (SamlGlobal.SelfServiceBrowserDefaultReturnTo d))
                   307],
           Returned None)
    | inl _ =>
        (t ++ [ErrorManagerForward (Some e); ErrorManagerForward None],
         Returned None)
    end.
Proof.
  intros Hb.
  unfold SamlGlobal.loginWithIdp, SamlGlobal.instantiateMiddleware,
    SamlGlobal.dispatch.
  rewrite Hb. handler_simpl.
  destruct (SamlGlobal.SessionManager_FetchFromRequest d r) as [sess|se];
    handler_simpl.
  - by rewrite <- !app_assoc.
  - destruct (is_no_active_session se); handler_simpl; by rewrite <- !app_assoc.
Qed.

Lemma loginWithIdp_after_failed_build_witness :
  SamlGlobal.loginWithIdp Example.globalDeps Example2.globalExtFailing None
    Example.anonymous
  = ([ErrorManagerForward
        (Some (ErrOther "open /etc/config/sp.crt: no such file or directory"))],
     Panicked NilDereference).
Proof.
  exact (loginWithIdp_after_failed_build Example.globalDeps
           Example2.globalExtFailing Example.anonymous []
           (ErrOther "open /etc/config/sp.crt: no such file or directory")
           eq_refl).
Defined.

(** X17. Requests served one after the other share one engine: when the
    first request finds no engine and builds one, it returns with that
    engine in the package variable; any later request on that variable,
    initiation or metadata, constructs nothing, fetches no metadata and
    leaves the variable as it is, and [GetMiddleware] hands the engine out
    without error. *)
Theorem engine_built_once_in_sequence
    (d : SamlGlobal.handlerDependencies) (ext : SamlGlobal.Externals)
    (r1 r2 : Request) (t : list Call) (m : samlsp.Middleware)
    (err : option error) :
  SamlGlobal.buildMiddleware d ext r1 = (t, Returned (Some m, err)) →
  result (SamlGlobal.loginWithIdp d ext None r1) = Returned (Some m)
  ∧ result (SamlGlobal.loginWithIdp d ext (Some m) r2) = Returned (Some m)
  ∧ SamlGlobalRest.submitMetadata d ext (Some m) r2
    = ([ServeMetadata], Returned (Some m))
  ∧ SamlGlobal.GetMiddleware (Some m) = (Some m, None)
  ∧ length (filter (λ c, is_construction c = true)
              (trace (SamlGlobal.loginWithIdp d ext None r1)
                 ++ trace (SamlGlobal.loginWithIdp d ext (Some m) r2))) = 1
  ∧ filter (λ c, SamlGlobalRest.is_metadata_fetch c = true)
      (trace (SamlGlobal.loginWithIdp d ext (Some m) r2)) = [].
Proof.
  intros Hb.
  pose proof (buildMiddleware_constructs_once d ext r1 t m err Hb) as Hone.
  rewrite (global_loginWithIdp_cases d ext m r2).
  unfold SamlGlobal.loginWithIdp at 1 2, SamlGlobal.instantiateMiddleware,
    SamlGlobal.dispatch.
  rewrite Hb. handler_simpl.
  destruct (SamlGlobal.SessionManager_FetchFromRequest d r1) as [s1|e1];
    destruct (SamlGlobal.SessionManager_FetchFromRequest d r2) as [s2|e2];
    handler_simpl;
    repeat match goal with
           | |- context [is_no_active_session ?e] =>
               destruct (is_no_active_session e)
           end;
    handler_simpl; rewrite ?app_nil_r, ?filter_app, ?length_app, ?Hone; done.
Qed.

Lemma engine_built_once_in_sequence_witness :
  result (SamlGlobal.loginWithIdp Example.globalDeps Example.globalExt None
            Example.anonymous) = Returned (Some Example2.builtEngine)
  ∧ result (SamlGlobal.loginWithIdp Example.globalDeps Example.globalExt
              (Some Example2.builtEngine) Example.signedIn)
    = Returned (Some Example2.builtEngine)
  ∧ SamlGlobalRest.submitMetadata Example.globalDeps Example.globalExt
      (Some Example2.builtEngine) Example.signedIn
    = ([ServeMetadata], Returned (Some Example2.builtEngine))
  ∧ SamlGlobal.GetMiddleware (Some Example2.builtEngine)
    = (Some Example2.builtEngine, None)
  ∧ length (filter (λ c, is_construction c = true)
              (trace (SamlGlobal.loginWithIdp Example.globalDeps Example.globalExt
                        None Example.anonymous)
                 ++ trace (SamlGlobal.loginWithIdp Example.globalDeps
                             Example.globalExt (Some Example2.builtEngine)
                             Example.signedIn))) = 1
  ∧ filter (λ c, SamlGlobalRest.is_metadata_fetch c = true)
      (trace (SamlGlobal.loginWithIdp Example.globalDeps Example.globalExt
                (Some Example2.builtEngine) Example.signedIn)) = [].
Proof.
  refine (engine_built_once_in_sequence Example.globalDeps Example.globalExt
            Example.anonymous Example.signedIn
            [FetchMetadata "https://idp.example/metadata"; SamlspNew]
            Example2.builtEngine None _).
  reflexivity.
Defined.


(** X19. A trailing slash on the public URL makes no difference to the
    engine: with public URL [s/] [instantiateMiddleware] does exactly what
    it does with public URL [s], provided [s] is not empty and does not
    itself end in a slash. *)
Theorem public_url_trailing_slash
    (d : SamlGlobal.handlerDependencies) (ext : SamlGlobal.Externals)
    (r : Request) (s : string) (path path' : string) (c : Ascii.ascii) :
  SamlGlobal.last_byte s = Returned c →
  c ≠ "/"%char →
  SamlGlobal.buildMiddleware
    (SamlGlobalRest.withPublicURL d {| url_String := s +:+ "/"; url_Path := path |})
    ext r
  = SamlGlobal.buildMiddleware
      (SamlGlobalRest.withPublicURL d {| url_String := s; url_Path := path' |})
      ext r.
Proof.
  intros Hlast Hc.
  unfold SamlGlobal.buildMiddleware. simpl.
  rewrite last_byte_slash, Hlast. handler_simpl.
  rewrite (decide_False (P := c = "/"%char)) by done.
  rewrite drop_last_slash. reflexivity.
Qed.

Lemma public_url_trailing_slash_witness :
  SamlGlobal.buildMiddleware
    (SamlGlobalRest.withPublicURL Example.globalDeps
       {| url_String := "https://kratos.example" +:+ "/"; url_Path := "/" |})
    Example.globalExt Example.request
  = SamlGlobal.buildMiddleware
      (SamlGlobalRest.withPublicURL Example.globalDeps
         {| url_String := "https://kratos.example"; url_Path := "" |})
      Example.globalExt Example.request.
Proof.
  apply (public_url_trailing_slash Example.globalDeps Example.globalExt
           Example.request "https://kratos.example" "/" "" "e"%char).
  - reflexivity.
  - discriminate.
Defined.



(** The example with the empty public URL: the engine is constructed and
    the run ends in the index panic. *)
Example empty_public_url_example :
  SamlGlobal.buildMiddleware
    (SamlGlobalRest.withPublicURL Example.globalDeps
       {| url_String := ""; url_Path := "" |})
    Example.globalExt Example.request
  = ([FetchMetadata "https://idp.example/metadata"; SamlspNew],
     Panicked (IndexOutOfRange (-1) 0)).
Proof. reflexivity. Qed.

(** ** Racing requests, under every schedule *)

Section Schedules.

Import SamlGlobal Concurrent ConcurrentSpec.

Context (d : handlerDependencies) (ext : Externals).

Lemma run_app s1 s2 σ : run d ext (s1 ++ s2) σ = run d ext s2 (run d ext s1 σ).
Proof. unfold run. apply foldl_app. Qed.

Lemma move_keeps_engine σ g :
  samlMiddleware σ ≠ None → (move d ext σ g).1.2 ≠ None.
Proof.
  intros Hset. unfold move.
  destruct (at_ g); simpl; try done.
  - destruct (buildMiddleware d ext (request g)) as [t [[[m|] err]|p]]; done.
  - by destruct (dispatch d (snd <$> samlMiddleware σ) (request g)).
Qed.

Lemma step_keeps_engine σ i :
  samlMiddleware σ ≠ None → samlMiddleware (step d ext σ i) ≠ None.
Proof.
  intros Hset. unfold step.
  destruct (goroutines σ !! i) as [g|]; [|done].
  pose proof (move_keeps_engine σ g Hset) as Hmove.
  by destruct (move d ext σ g) as [[g' mw] n].
Qed.

Lemma run_keeps_engine s σ :
  samlMiddleware σ ≠ None → samlMiddleware (run d ext s σ) ≠ None.
Proof.
  revert σ. induction s as [|i s IH]; intros σ Hset; [done|].
  simpl. by apply IH, step_keeps_engine.
Qed.

Lemma buildMiddleware_constructs_at_most_once r :
  (length (filter (λ c, is_construction c = true)
             (trace (buildMiddleware d ext r))) ≤ 1)%nat.
Proof.
  unfold buildMiddleware. handler_cases.
  all: rewrite ?app_nil_r, ?filter_app, ?length_app;
    try match goal with
        | H : idpMetadataOf _ _ = _ |- _ =>
            rewrite (idpMetadataOf_no_construction ext _ _ _ H)
        end; simpl; lia.
Qed.

Lemma dispatch_constructs_nothing g r :
  filter (λ c, is_construction c = true) (trace (dispatch d g r)) = [].
Proof. unfold dispatch. handler_cases. Qed.

Lemma move_settled σ g : settled g → settled (move d ext σ g).1.1.
Proof.
  intros [Hle Hzero]. unfold move.
  destruct (at_ g) eqn:Hat; simpl.
  - destruct (samlMiddleware σ); split; simpl; unfold built in *; simpl;
      rewrite ?Hzero; auto.
  - pose proof (buildMiddleware_constructs_at_most_once (request g)) as Hb.
    specialize (Hzero (or_intror eq_refl)). unfold built in Hzero.
    destruct (buildMiddleware d ext (request g)) as [t [[[m|] err]|p]];
      unfold trace in Hb; simpl in Hb;
      (split; [|simpl; by intros [|]]); unfold built; simpl;
      rewrite ?filter_app, ?length_app, Hzero.
    + lia.
    + destruct err; simpl; lia.
    + lia.
  - split; [done|]. simpl. by intros [|].
  - pose proof (dispatch_constructs_nothing (snd <$> samlMiddleware σ)
                  (request g)) as Hd.
    destruct (dispatch d (snd <$> samlMiddleware σ) (request g)) as [t o].
    unfold trace in Hd; simpl in Hd.
    split; [|simpl; by destruct o; intros [|]].
    unfold built in *. simpl. by rewrite filter_app, length_app, Hd, Nat.add_0_r.
  - split; [done|]. rewrite Hat. by intros [|].
  - split; [done|]. rewrite Hat. by intros [|].
Qed.

Lemma step_settled σ i :
  Forall settled (goroutines σ) → Forall settled (goroutines (step d ext σ i)).
Proof.
  intros Hall. unfold step.
  destruct (goroutines σ !! i) as [g|] eqn:Hg; [|done].
  pose proof (move_settled σ g) as Hmove.
  destruct (move d ext σ g) as [[g' mw] n]. simpl in *.
  apply Forall_insert; [done|]. apply Hmove.
  by eapply Forall_lookup_1.
Qed.

Lemma step_length σ i :
  length (goroutines (step d ext σ i)) = length (goroutines σ).
Proof.
  unfold step. destruct (goroutines σ !! i) as [g|]; [|done].
  destruct (move d ext σ g) as [[g' mw] n]. simpl. apply length_insert.
Qed.

Lemma run_settled s σ :
  Forall settled (goroutines σ) →
  Forall settled (goroutines (run d ext s σ))
  ∧ length (goroutines (run d ext s σ)) = length (goroutines σ).
Proof.
  revert σ. induction s as [|i s IH]; intros σ Hall; [done|].
  simpl. destruct (IH (step d ext σ i) (step_settled σ i Hall)) as [H1 H2].
  split; [done|]. by rewrite H2, step_length.
Qed.

Lemma constructions_le gs :
  Forall settled gs →
  (length (filter (λ c, is_construction c = true) (mjoin (calls <$> gs)))
   ≤ length gs)%nat.
Proof.
  induction 1 as [|g gs [Hle _] _ IH]; [done|].
  simpl. rewrite filter_app, length_app. unfold built in Hle.
  change (list_fmap goroutine (list Call) calls gs) with (calls <$> gs). lia.
Qed.

End Schedules.

(** X21. Under every schedule the package variable, once assigned, stays
    assigned: no step of any request sets [samlMiddleware] back to nil. *)
Theorem engine_stays_assigned
    (d : SamlGlobal.handlerDependencies) (ext : SamlGlobal.Externals)
    (rs : list Request) (s1 s2 : list nat) :
  Concurrent.samlMiddleware (Concurrent.run d ext s1 (Concurrent.start rs)) ≠ None →
  Concurrent.samlMiddleware (Concurrent.run d ext (s1 ++ s2) (Concurrent.start rs))
  ≠ None.
Proof.
  intros Hset. rewrite run_app. by apply run_keeps_engine.
Qed.

Lemma engine_stays_assigned_witness :
  Concurrent.samlMiddleware
    (Concurrent.run Example.globalDeps Example.globalExt ([0; 0; 0] ++ [1; 0; 1; 1])
       (Concurrent.start [Example.anonymous; Example.signedIn]))
  ≠ None.
Proof.
  apply (engine_stays_assigned Example.globalDeps Example.globalExt
           [Example.anonymous; Example.signedIn] [0; 0; 0] [1; 0; 1; 1]).
  vm_compute. discriminate.
Defined.

(** X22. Under every schedule each request constructs the engine at most
    once, so the number of constructions never exceeds the number of
    requests, however they race. *)
Theorem constructions_bounded_by_requests
    (d : SamlGlobal.handlerDependencies) (ext : SamlGlobal.Externals)
    (rs : list Request) (schedule : list nat) :
  (Concurrent.constructions (Concurrent.run d ext schedule (Concurrent.start rs))
   ≤ length rs)%nat
  ∧ Forall (λ g, (ConcurrentSpec.built g ≤ 1)%nat)
      (Concurrent.goroutines (Concurrent.run d ext schedule (Concurrent.start rs))).
Proof.
  assert (Forall ConcurrentSpec.settled
            (Concurrent.goroutines (Concurrent.start rs))) as Hstart.
  { unfold Concurrent.start. simpl. apply Forall_fmap, Forall_forall.
    intros r _. unfold ConcurrentSpec.settled, ConcurrentSpec.built. simpl.
    split; [lia|done]. }
  destruct (run_settled d ext schedule _ Hstart) as [Hall Hlen].
  split.
  - unfold Concurrent.constructions.
    etrans; [by apply constructions_le|].
    rewrite Hlen. unfold Concurrent.start. simpl. by rewrite length_fmap.
  - eapply Forall_impl; [exact Hall|]. by intros g [Hle _].
Qed.

(** ** More on the handler that owns its engine *)

(** What [instantiateMiddleware] of handler.go hands back when it
    returns: an error and no engine, or the engine with its ACS URL. *)
Lemma handler_instantiateMiddleware_returned
    (ext : SamlGlobal.Externals) (conf : SamlHandlerRest.Config)
    (t : list Call) (mw : option samlsp.Middleware) (err : option error) :
  SamlHandlerRest.instantiateMiddleware ext conf = (t, Returned (mw, err)) →
  (mw = None ∧ is_Some err)
  ∨ (err = None
     ∧ (∃ built u,
          mw = Some (SamlHandlerRest.with_acs built u)
          ∧ SamlGlobal.url_Parse ext
              (url_String (SamlHandlerRest.SelfPublicURL conf)
                 +:+ SamlHandler.RouteSamlAcs) = inl u)
     ∧ length (filter (λ c, is_construction c = true) t) = 1
     ∧ length (filter (λ c, SamlGlobalRest.is_metadata_fetch c = true) t) = 1).
Proof.
  unfold SamlHandlerRest.instantiateMiddleware.
  handler_cases; intros [= <- <- <-]; try (left; by eauto).
  right. repeat split; try done. by eexists _, _.
Qed.

(** X23. [NewHandler] either panics, with the error [instantiateMiddleware]
    returned or with the panic it raised, or returns a handler around the
    dependencies given whose engine pointer is not nil: it is the engine
    [instantiateMiddleware] built, with the ACS URL parsed from the public
    URL followed by the ACS route as it stands, after one metadata fetch and
    one call of [samlsp.New]. *)
Theorem NewHandler_owns_engine
    (ext : SamlGlobal.Externals) (d : SamlHandler.handlerDependencies)
    (conf : SamlHandlerRest.Config) :
  match SamlHandlerRest.NewHandler ext d conf with
  | (t, Returned h) =>
      SamlHandler.d h = d
      ∧ (∃ built u,
           SamlHandler.samlMiddleware h = Some (SamlHandlerRest.with_acs built u)
           ∧ SamlGlobal.url_Parse ext
               (url_String (SamlHandlerRest.SelfPublicURL conf)
                  +:+ SamlHandler.RouteSamlAcs) = inl u)
      ∧ SamlHandlerRest.instantiateMiddleware ext conf
        = (t, Returned (SamlHandler.samlMiddleware h, None))
      ∧ length (filter (λ c, is_construction c = true) t) = 1
      ∧ length (filter (λ c, SamlGlobalRest.is_metadata_fetch c = true) t) = 1
  | (t, Panicked p) =>
      (∃ e, SamlHandlerRest.instantiateMiddleware ext conf
            = (t, Returned (None, Some e))
            ∧ p = ErrorPanic e)
      ∨ SamlHandlerRest.instantiateMiddleware ext conf = (t, Panicked p)
  end.
Proof.
  unfold SamlHandlerRest.NewHandler.
  destruct (SamlHandlerRest.instantiateMiddleware ext conf)
    as [t [[mw err]|p]] eqn:Hinst; handler_simpl; [|by right].
  destruct (handler_instantiateMiddleware_returned ext conf t mw err Hinst)
    as [[-> [e ->]]|(-> & Hmw & Hc & Hf)]; handler_simpl; rewrite app_nil_r.
  - left. by exists e.
  - by repeat split.
Qed.

(** X24. [loginWithIdp] of handler.go ends every request with one call of
    the engine's error responder, carrying the outcome of the session
    lookup, nil included; before it the handler has answered at most once,
    and not at all exactly when the lookup failed for another reason than
    a missing session. *)
Theorem loginWithIdp_always_calls_OnError
    (h : SamlHandler.Handler) (m : samlsp.Middleware) (r : Request) :
  SamlHandler.samlMiddleware h = Some m →
  ∃ before,
    SamlHandler.loginWithIdp h r
    = (before
         ++ [OnError
               match SamlHandler.SessionManager_FetchFromRequest
                       (SamlHandler.d h) r with
               | inl _ => None
               | inr e => Some e
               end],
       Returned ())
    ∧ (responses before ≤ 1)%nat
    ∧ (responses before = 0
       ↔ ∃ e, SamlHandler.SessionManager_FetchFromRequest (SamlHandler.d h) r
              = inr e
              ∧ is_no_active_session e = false).
Proof.
  intros Hm. rewrite (handler_loginWithIdp_cases h m r Hm).
  destruct (SamlHandler.SessionManager_FetchFromRequest (SamlHandler.d h) r)
    as [sess|e].
  - eexists [_]. split; [done|]. split; [by cbv|].
    split; [by cbv|]. by intros (e & He & _).
  - destruct (is_no_active_session e) eqn:Hn.
    + eexists [_]. split; [done|]. split; [by cbv|].
      split; [by cbv|]. intros (e' & [= <-] & He'). congruence.
    + exists []. split; [done|]. split; [cbv; lia|].
      split; [|done]. intros _. by exists e.
Qed.

Lemma loginWithIdp_always_calls_OnError_witness :
  ∃ before,
    SamlHandler.loginWithIdp (Example.handlerWith Example.middleware)
      Example.signedIn
    = (before
         ++ [OnError
               match SamlHandler.SessionManager_FetchFromRequest
                       (SamlHandler.d (Example.handlerWith Example.middleware))
                       Example.signedIn with
               | inl _ => None
               | inr e => Some e
               end],
       Returned ())
    ∧ (responses before ≤ 1)%nat
    ∧ (responses before = 0
       ↔ ∃ e, SamlHandler.SessionManager_FetchFromRequest
                (SamlHandler.d (Example.handlerWith Example.middleware))
                Example.signedIn = inr e
              ∧ is_no_active_session e = false).
Proof.
  exact (loginWithIdp_always_calls_OnError
           (Example.handlerWith Example.middleware) Example.middleware
           Example.signedIn eq_refl).
Defined.

(** ** The error handler on all flows *)

(** X26. [handleError] calls no collaborator that answers the request and
    changes nothing but a registration flow.  The error it returns is the
    error it was given, with one exception: for a registration flow with
    staged traits whose schema nodes cannot be built, that failure is
    returned in its place.  It panics only on a nil registration flow. *)
Theorem handleError_error_passthrough
    (d : Strategy.registrationStrategyDependencies) (ext : Strategy.Externals)
    (r : Request) (f : Flow) (provider : string)
    (traits : option (list Byte.byte)) (err : option error) :
  trace (Strategy.handleError d ext r f provider traits err) = []
  ∧ match result (Strategy.handleError d ext r f provider traits err) with
    | Returned (f', err') =>
        (match f with RegistrationFlow _ => True | _ => f' = f end)
        ∧ (err' = err
           ∨ ∃ rf t e,
               f = RegistrationFlow (Some rf)
               ∧ traits = Some t
               ∧ Strategy.NodesFromJSONSchema ext OpenIDConnectGroup
                   (Strategy.DefaultIdentityTraitsSchemaURL d) = inr e
               ∧ err' = Some e)
    | Panicked p => p = NilDereference ∧ f = RegistrationFlow None
    end.
Proof.
  unfold Strategy.handleError.
  destruct f as [|lf|[rf|]|sf]; handler_simpl;
    try (split; [done|]; split; [done|]; by left); try done.
  destruct traits as [t|]; [|split; [done|]; split; [done|]; by left].
  destruct (Strategy.NodesFromJSONSchema ext OpenIDConnectGroup
              (Strategy.DefaultIdentityTraitsSchemaURL d)) as [tn|e] eqn:Hs;
    simpl; (split; [done|]); (split; [done|]); [by left|].
  right. by exists rf, t, e.
Qed.

(** ** The initiation endpoint with the engine in place *)

(** X28. Once the engine exists, [loginWithIdp] of the handler with the
    package variable answers every request exactly once, never panics,
    constructs nothing and leaves the package variable as it is; it starts
    the authentication flow exactly when the session lookup fails with a
    missing session. *)
Theorem global_loginWithIdp_answers_once
    (d : SamlGlobal.handlerDependencies) (ext : SamlGlobal.Externals)
    (m : samlsp.Middleware) (r : Request) :
  result (SamlGlobal.loginWithIdp d ext (Some m) r) = Returned (Some m)
  ∧ responses (trace (SamlGlobal.loginWithIdp d ext (Some m) r)) = 1
  ∧ length (trace (SamlGlobal.loginWithIdp d ext (Some m) r)) = 1
  ∧ (trace (SamlGlobal.loginWithIdp d ext (Some m) r) = [HandleStartAuthFlow]
     ↔ ∃ e, SamlGlobal.SessionManager_FetchFromRequest d r = inr e
            ∧ is_no_active_session e = true).
Proof.
  rewrite global_loginWithIdp_cases. unfold trace, result. simpl.
  destruct (SamlGlobal.SessionManager_FetchFromRequest d r) as [sess|e].
  - repeat split; try done. by intros (e & He & _).
  - destruct (is_no_active_session e) eqn:Hn; repeat split; try done.
    + intros _. by exists e.
    + intros (e' & [= <-] & He'). congruence.
Qed.
